(** * Secret rotation: the four-step rotation handler

    A shallow embedding of
    [infrastructure/modules/secrets/rotation_lambda.py]: the Lambda entry
    point [handler] and the step handlers [create_secret], [set_secret],
    [test_secret], [finish_secret] with the helper
    [get_current_version_id].

    The Python code runs against three collaborators that are not part of
    the repository: the Secrets Manager client (boto3), the [json] module
    and the clock.  The handlers below are written over an arbitrary
    client and an arbitrary JSON codec; the clock is a field of the world
    they run in.  An in-memory secret store that follows the collaborator
    contract of the specification instantiates the client where a property
    depends on what the store does. *)

From Stdlib Require Import ssreflect.
From stdpp Require Import gmap strings list fin_maps.
From Stdlib Require Import ZArith Ascii String DecimalString.

Set Warnings "-register-all,-rewrite-rw,-clear-no-such-hyp".

(** ** Python values, exceptions and results *)

(** What [json.loads] returns.  A JSON object becomes a Python [dict]: keys
    are unique and keep their insertion order, which is the order
    [json.dumps] writes them in, so a dict is an association list. *)
Inductive json : Type :=
| JNull
| JBool (b : bool)
| JInt (n : Z)
| JFloat (literal : string)
| JStr (s : string)
| JList (l : list json)
| JDict (d : list (string * json)).

(** [type(x).__name__] *)
Definition type_name (j : json) : string :=
  match j with
  | JNull => "NoneType"
  | JBool _ => "bool"
  | JInt _ => "int"
  | JFloat _ => "float"
  | JStr _ => "str"
  | JList _ => "list"
  | JDict _ => "dict"
  end.

(** [d.get(k)] *)
Fixpoint dict_get (k : string) (d : list (string * json)) : option json :=
  match d with
  | [] => None
  | (k', v) :: d' => if String.eqb k k' then Some v else dict_get k d'
  end.

(** [k in d] *)
Definition dict_contains (k : string) (d : list (string * json)) : bool :=
  match dict_get k d with Some _ => true | None => false end.

(** [d[k] = v]: an existing key keeps its place, a new key goes last. *)
Fixpoint dict_setitem (k : string) (v : json) (d : list (string * json))
  : list (string * json) :=
  match d with
  | [] => [(k, v)]
  | (k', v') :: d' =>
      if String.eqb k k' then (k, v) :: d' else (k', v') :: dict_setitem k v d'
  end.

(** [x in l] for a string [x] and a list [l] of JSON values: only a string
    element can be equal to a string. *)
Definition list_contains_str (x : string) (l : list json) : bool :=
  existsb (fun j => match j with JStr s => String.eqb x s | _ => false end) l.

(** The exceptions the handlers can meet.  [ClientError] is botocore's: it
    carries [e.response['Error']['Code']] and the text [str(e)] gives.
    [JSONDecodeError] is what [json.loads] raises; [OtherError] is any other
    subclass of [Exception] a collaborator may raise (a connection error,
    say), with its class name. *)
Inductive exn : Type :=
| ClientError (Code : string) (text : string)
| ValueError (msg : string)
| JSONDecodeError (msg : string)
| TypeError (msg : string)
| AttributeError (msg : string)
| OtherError (cls : string) (msg : string).

(** [str(e)] *)
Definition str (e : exn) : string :=
  match e with
  | ClientError _ text => text
  | ValueError msg | JSONDecodeError msg | TypeError msg
  | AttributeError msg | OtherError _ msg => msg
  end.

Inductive result (A : Type) : Type :=
| Ok (a : A)
| Raise (e : exn).
Arguments Ok {A} a.
Arguments Raise {A} e.

(** ** The world a handler runs in *)

(** One call on the Secrets Manager client, with the keyword arguments the
    code passes. *)
Inductive api_call : Type :=
| GetSecretValue (SecretId : string) (VersionId VersionStage : option string)
| PutSecretValue (SecretId ClientRequestToken SecretString : string)
    (VersionStages : list string)
| DescribeSecret (SecretId : string)
| UpdateSecretVersionStage
    (SecretId VersionStage ClientRequestToken RemoveFromVersionId : string).

Inductive level : Type := INFO | ERROR.

(** The state of the secret store (of type [S], the client's own), the
    calls made on the client so far (latest first), the lines written to the
    logger (latest first) and the clock, [int(time.time())]. *)
Record world (S : Type) : Type := World {
  store : S;
  calls : list api_call;
  log : list (level * string);
  clock : Z
}.
Arguments World {S} _ _ _ _.
Arguments store {S} _.
Arguments calls {S} _.
Arguments log {S} _.
Arguments clock {S} _.

(** A computation returns a value or raises, and leaves a world behind in
    both cases: an exception undoes nothing. *)
Definition M (S A : Type) : Type := world S → result A * world S.

Definition ret {S A} (a : A) : M S A := λ w, (Ok a, w).

Definition raise {S A} (e : exn) : M S A := λ w, (Raise e, w).

Definition bind {S A B} (m : M S A) (k : A → M S B) : M S B :=
  λ w, match m w with
       | (Ok a, w') => k a w'
       | (Raise e, w') => (Raise e, w')
       end.

(** [try: body  except Exception as e: h e] *)
Definition try_except {S A} (body : M S A) (h : exn → M S A) : M S A :=
  λ w, match body w with
       | (Ok a, w') => (Ok a, w')
       | (Raise e, w') => h e w'
       end.

(** A pure step that may raise. *)
Definition lift {S A} (r : result A) : M S A := λ w, (r, w).

Declare Scope py_scope.
Delimit Scope py_scope with py.
Notation "x <- m ;; k" := (bind m (λ x, k))
  (at level 100, m at next level, right associativity) : py_scope.
Notation "m ;; k" := (bind m (λ _, k))
  (at level 100, right associativity) : py_scope.

Definition logger_info {S} (msg : string) : M S unit :=
  λ w, (Ok (), World (store w) (calls w) ((INFO, msg) :: log w) (clock w)).

Definition logger_error {S} (msg : string) : M S unit :=
  λ w, (Ok (), World (store w) (calls w) ((ERROR, msg) :: log w) (clock w)).

(** [int(time.time())] *)
Definition time_time {S} : M S Z := λ w, (Ok (clock w), w).

(** ** The collaborators *)

(** The response for a secret whose payload is a string: the code reads
    ['SecretString'] only. *)
Record GetSecretValueResponse : Type := {
  resp_VersionId : string;
  resp_SecretString : string
}.

(** [response['VersionIdsToStages']]: a dict from version id to the list of
    its staging labels.  Its items come in the order of the map, which is of
    no consequence where at most one version is current. *)
Record DescribeSecretResponse : Type := {
  VersionIdsToStages : gmap string (list string)
}.

(** The four client methods the code calls, with the keyword arguments it
    passes, over a store state [S].  The two queries return a response and
    leave the store as it is; the two updates return the store they leave,
    also when they raise. *)
Record SecretsManager (S : Type) : Type := {
  get_secret_value :
    string → option string → option string → S → result GetSecretValueResponse;
  put_secret_value :
    string → string → string → list string → S → result unit * S;
  describe_secret : string → S → result DescribeSecretResponse;
  update_secret_version_stage :
    string → string → string → string → S → result unit * S
}.
Arguments get_secret_value {S} _ _ _ _ _.
Arguments put_secret_value {S} _ _ _ _ _ _.
Arguments describe_secret {S} _ _ _.
Arguments update_secret_version_stage {S} _ _ _ _ _ _.

(** Python's [json] module: a reader, which finds a value in a text or a
    fault with it, and a writer. *)
Inductive parsed : Type :=
| Parsed (value : json)
| Malformed (msg : string).

Record JsonModule : Type := {
  parse : string → parsed;
  json_dumps : json → string
}.

(** [json.loads(s)]: the value, or [JSONDecodeError] on text that is not
    JSON. *)
Definition json_loads (jsonlib : JsonModule) (s : string) : result json :=
  match parse jsonlib s with
  | Parsed value => Ok value
  | Malformed msg => Raise (JSONDecodeError msg)
  end.

(** The event the rotation trigger sends: [event.get('Step')] is [None] when
    the key is absent; the secret id and the token are always there. *)
Record Event : Type := {
  SecretId : string;
  ClientRequestToken : string;
  Step : option string
}.

(** What [handler] returns. *)
Record Response : Type := {
  statusCode : Z;
  body : string
}.

(** [f"{step}"]: [None] prints as its name. *)
Definition fmt (step : option string) : string :=
  match step with Some s => s | None => "None" end.

(** [step == name] *)
Definition step_is (step : option string) (name : string) : bool :=
  match step with Some s => String.eqb s name | None => false end.

(** ** The handlers *)

Section Handlers.
Context {S : Type}.
Variable secretsmanager : SecretsManager S.
Variable jsonlib : JsonModule.

Local Open Scope py_scope.

(** A call on the client: recorded, then run on the store. *)
Definition call_query {A} (c : api_call) (q : S → result A) : M S A :=
  λ w, (q (store w), World (store w) (c :: calls w) (log w) (clock w)).

Definition call_update (c : api_call) (u : S → result unit * S) : M S unit :=
  λ w, let '(r, s') := u (store w) in
       (r, World s' (c :: calls w) (log w) (clock w)).

(** The body of the [if 'apiVersion' in new_data] of [create_secret], on
    the copy of the current data.  Only a dict and a list have [copy]; a
    list takes no string index. *)
Definition rotate_data (token : string) (current_data : json)
  : M S json :=
  match current_data with
  | JDict new_data =>
      if dict_contains "apiVersion" new_data then
        now <- time_time ;;
        let new_data := dict_setitem "lastRotated" (JInt now) new_data in
        let new_data :=
          dict_setitem "rotationId" (JStr (String.substring 0 8 token)) new_data in
        ret (JDict new_data)
      else ret (JDict new_data)
  | JList new_data =>
      if list_contains_str "apiVersion" new_data then
        now <- time_time ;;
        raise (TypeError "list indices must be integers or slices, not str")
      else ret (JList new_data)
  | other =>
      raise (AttributeError
               ("'" +:+ type_name other +:+ "' object has no attribute 'copy'"))
  end.

Definition create_secret (secret_arn token : string) : M S unit :=
  try_except
    (current_secret <-
       call_query (GetSecretValue secret_arn None (Some "AWSCURRENT"))
         (get_secret_value secretsmanager secret_arn None (Some "AWSCURRENT")) ;;
     current_data <- lift (json_loads jsonlib (resp_SecretString current_secret)) ;;
     new_data <- rotate_data token current_data ;;
     call_update
       (PutSecretValue secret_arn token (json_dumps jsonlib new_data) ["AWSPENDING"])
       (put_secret_value secretsmanager secret_arn token
          (json_dumps jsonlib new_data) ["AWSPENDING"]) ;;
     logger_info "Successfully created new secret version")
    (λ e,
       match e with
       | ClientError Code _ =>
           if String.eqb Code "ResourceExistsException"
           then logger_info "Secret version already exists"
           else raise e
       | _ => raise e
       end).

Definition set_secret (secret_arn token : string) : M S unit :=
  logger_info "Setting secret - no external configuration needed for app config".

Definition required_fields : list string := ["apiVersion"].

(** [for field in required_fields: if field not in secret_data: raise] *)
Fixpoint check_required (fields : list string) (secret_data : list (string * json))
  : M S unit :=
  match fields with
  | [] => ret ()
  | field :: fields' =>
      if dict_contains field secret_data then check_required fields' secret_data
      else raise (ValueError
                    ("Required field '" +:+ field +:+ "' missing from secret"))
  end.

Definition test_secret (secret_arn token : string) : M S unit :=
  try_except
    (pending_secret <-
       call_query (GetSecretValue secret_arn (Some token) (Some "AWSPENDING"))
         (get_secret_value secretsmanager secret_arn (Some token)
            (Some "AWSPENDING")) ;;
     secret_data <- lift (json_loads jsonlib (resp_SecretString pending_secret)) ;;
     match secret_data with
     | JDict secret_data =>
         check_required required_fields secret_data ;;
         logger_info "Secret validation passed"
     | _ => raise (ValueError "Secret data must be a JSON object")
     end)
    (λ e,
       logger_error ("Secret validation failed: " +:+ str e) ;;
       raise e).

(** [for version_id, stages in items: if 'AWSCURRENT' in stages: return
    version_id] *)
Fixpoint first_current (items : list (string * list string)) : option string :=
  match items with
  | [] => None
  | (version_id, stages) :: items' =>
      if bool_decide ("AWSCURRENT" ∈ stages) then Some version_id
      else first_current items'
  end.

Definition get_current_version_id (secret_arn : string) : M S string :=
  try_except
    (response <-
       call_query (DescribeSecret secret_arn)
         (describe_secret secretsmanager secret_arn) ;;
     match first_current (map_to_list (VersionIdsToStages response)) with
     | Some version_id => ret version_id
     | None => raise (ValueError "No current version found")
     end)
    (λ e,
       logger_error ("Failed to get current version ID: " +:+ str e) ;;
       raise e).

Definition finish_secret (secret_arn token : string) : M S unit :=
  try_except
    (current <- get_current_version_id secret_arn ;;
     call_update
       (UpdateSecretVersionStage secret_arn "AWSCURRENT" token current)
       (update_secret_version_stage secretsmanager secret_arn "AWSCURRENT"
          token current) ;;
     logger_info "Successfully finished secret rotation")
    (λ e,
       logger_error ("Failed to finish rotation: " +:+ str e) ;;
       raise e).

Definition handler (event : Event) : M S Response :=
  let secret_arn := SecretId event in
  let token := ClientRequestToken event in
  let step := Step event in
  logger_info ("Starting rotation for secret: " +:+ secret_arn
               +:+ ", step: " +:+ fmt step) ;;
  try_except
    ((if step_is step "createSecret" then create_secret secret_arn token
      else if step_is step "setSecret" then set_secret secret_arn token
      else if step_is step "testSecret" then test_secret secret_arn token
      else if step_is step "finishSecret" then finish_secret secret_arn token
      else
        logger_error ("Invalid step: " +:+ fmt step) ;;
        raise (ValueError ("Invalid step: " +:+ fmt step))) ;;
     logger_info ("Successfully completed step: " +:+ fmt step) ;;
     ret {| statusCode := 200; body := json_dumps jsonlib (JStr "Success") |})
    (λ e,
       logger_error ("Error in step " +:+ fmt step +:+ ": " +:+ str e) ;;
       raise e).

End Handlers.

(** ** An in-memory secret store

    The store the handlers talk to is Secrets Manager itself.  What follows
    is the store of the specification's collaborator contract: versions of a
    secret keyed by version id, each with a payload and a set of staging
    labels, no two versions sharing an exclusive label.  Between the code
    and the store stands the client, which checks the keywords of a call
    against the parameters of the operation before it sends anything. *)

Record version : Type := Version {
  SecretString : string;
  VersionStages : gset string
}.

(** secret id ↦ version id ↦ version *)
Abbreviation secret := (gmap string version).
Abbreviation secrets := (gmap string (gmap string version)).

(** botocore's text for a service error. *)
Definition client_error (Code operation Message : string) : exn :=
  ClientError Code
    ("An error occurred (" +:+ Code +:+ ") when calling the " +:+ operation
     +:+ " operation: " +:+ Message).

Definition not_found (operation : string) : exn :=
  client_error "ResourceNotFoundException" operation
    "Secrets Manager can't find the specified secret.".

Definition resource_exists (operation : string) : exn :=
  client_error "ResourceExistsException" operation
    "A resource with the ID you requested already exists.".

Definition stage_conflict (operation : string) : exn :=
  client_error "InvalidParameterException" operation
    "The staging label is not attached to the version to remove it from.".

(** The versions of a secret that carry a staging label. *)
Definition holders (stage : string) (sec : secret) : gset string :=
  dom (filter (λ kv, stage ∈ VersionStages kv.2) sec).

(** The specification's invariant on a label: at most one version carries
    it. *)
Definition exclusive (stage : string) (sec : secret) : Prop :=
  size (holders stage sec) ≤ 1.

Definition strip (stages : gset string) (x : version) : version :=
  Version (SecretString x) (VersionStages x ∖ stages).

(** The labels a version lets go of when it takes [stage]: a version that
    becomes current is promoted, and is pending no longer. *)
Definition given_up (stage : string) : gset string :=
  if bool_decide (stage = "AWSCURRENT") then {["AWSPENDING"]} else ∅.

Definition take (stage : string) (x : version) : version :=
  Version (SecretString x) (VersionStages x ∖ given_up stage ∪ {[stage]}).

(** The label [stage] leaves the version [from] and joins the version
    [to]. *)
Definition move (stage from to : string) (sec : gmap string version)
  : gmap string version :=
  alter (take stage) to (alter (strip {[stage]}) from sec).

(** Whether a version matches the stage asked for, if one is. *)
Definition carries (VersionStage : option string) (x : version) : bool :=
  match VersionStage with
  | Some stage => bool_decide (stage ∈ VersionStages x)
  | None => true
  end.

(** Modelled from the spec: the store's [GetSecretValue(secret_id,
    {version_id | stage}) -> (payload, version_id)], which fails with
    NotFoundError if no matching version/stage exists.  A version id and a
    stage given together must name the same version; with neither, the
    current version is meant. *)
Definition mem_get_secret_value (SecretId : string)
    (VersionId VersionStage : option string) (st : secrets)
  : result GetSecretValueResponse :=
  match st !! SecretId with
  | None => Raise (not_found "GetSecretValue")
  | Some sec =>
      match VersionId with
      | Some vid =>
          match sec !! vid with
          | Some x =>
              if carries VersionStage x
              then Ok {| resp_VersionId := vid;
                         resp_SecretString := SecretString x |}
              else Raise (not_found "GetSecretValue")
          | None => Raise (not_found "GetSecretValue")
          end
      | None =>
          let stage := default "AWSCURRENT" VersionStage in
          match map_to_list (filter (λ kv, stage ∈ VersionStages kv.2) sec) with
          | (vid, x) :: _ =>
              Ok {| resp_VersionId := vid; resp_SecretString := SecretString x |}
          | [] => Raise (not_found "GetSecretValue")
          end
      end
  end.

(** Modelled from the spec: the store's [PutSecretValue(secret_id, token,
    payload, stages)], which fails with the "already exists" condition when
    the token already has a version, without touching it.  The new version
    takes the given labels from whichever versions carried them. *)
Definition mem_put_secret_value (SecretId ClientRequestToken SecretString : string)
    (VersionStages : list string) (st : secrets) : result unit * secrets :=
  match st !! SecretId with
  | None => (Raise (not_found "PutSecretValue"), st)
  | Some sec =>
      match sec !! ClientRequestToken with
      | Some _ => (Raise (resource_exists "PutSecretValue"), st)
      | None =>
          let stages : gset string := list_to_set VersionStages in
          (Ok (),
           <[SecretId :=
               <[ClientRequestToken := Version SecretString stages]>
                 (strip stages <$> sec)]> st)
      end
  end.

(** Modelled from the spec: the store's [DescribeSecret(secret_id)], the
    mapping of version id to stage labels; NotFoundError if the secret is
    absent. *)
Definition mem_describe_secret (SecretId : string) (st : secrets)
  : result DescribeSecretResponse :=
  match st !! SecretId with
  | None => Raise (not_found "DescribeSecret")
  | Some sec =>
      Ok {| VersionIdsToStages := (λ x, elements (VersionStages x)) <$> sec |}
  end.

(** Modelled from the spec: the store's atomic
    [UpdateVersionStage(secret_id, stage_label, move_to_version_id,
    move_from_version_id)].  The label leaves the version it is removed from
    and joins the version it moves to, in one step, and a version promoted
    to current loses the pending label (the lifecycle of the data model);
    the operation fails, changing nothing, when either version is missing or
    the label is not on the version to remove it from. *)
Definition mem_move_stage
    (SecretId VersionStage MoveToVersionId RemoveFromVersionId : string)
    (st : secrets) : result unit * secrets :=
  match st !! SecretId with
  | None => (Raise (not_found "UpdateSecretVersionStage"), st)
  | Some sec =>
      match sec !! RemoveFromVersionId, sec !! MoveToVersionId with
      | Some old, Some _ =>
          if bool_decide (VersionStage ∈ VersionStages old) then
            (Ok (),
             <[SecretId :=
                 move VersionStage RemoveFromVersionId MoveToVersionId sec]> st)
          else (Raise (stage_conflict "UpdateSecretVersionStage"), st)
      | _, _ => (Raise (not_found "UpdateSecretVersionStage"), st)
      end
  end.

(** The parameters the client's [update_secret_version_stage] takes. *)
Definition update_stage_parameters : list string :=
  ["SecretId"; "VersionStage"; "RemoveFromVersionId"; "MoveToVersionId"].

(** The first keyword of a call that is no parameter of the operation
    called. *)
Definition unknown_keyword (parameters keywords : list string) : option string :=
  List.find (λ keyword, negb (bool_decide (keyword ∈ parameters))) keywords.

(** What the client raises on such a keyword: botocore's
    [ParamValidationError], which is no [ClientError], with its text. *)
Definition param_validation_error (keyword : string) (parameters : list string)
  : exn :=
  let quote := String (ascii_of_nat 34) EmptyString in
  let newline := String (ascii_of_nat 10) EmptyString in
  OtherError "ParamValidationError"
    ("Parameter validation failed:" +:+ newline
     +:+ "Unknown parameter in input: " +:+ quote +:+ keyword +:+ quote
     +:+ ", must be one of: " +:+ String.concat ", " parameters).

(** A call of the client's [update_secret_version_stage] that names the
    version to move the label to by [keyword].  The client checks the
    keywords of the call against the parameters of the operation and raises
    on one it does not know, before anything reaches the store; a call
    whose keywords are the operation's own is the store's move. *)
Definition mem_update_call (keyword : string)
    (SecretId VersionStage target RemoveFromVersionId : string)
    (st : secrets) : result unit * secrets :=
  match unknown_keyword update_stage_parameters
          ["SecretId"; "VersionStage"; keyword; "RemoveFromVersionId"] with
  | Some unknown =>
      (Raise (param_validation_error unknown update_stage_parameters), st)
  | None => mem_move_stage SecretId VersionStage target RemoveFromVersionId st
  end.

(** The call [finish_secret] makes: it names the version to move the label
    to by the keyword [ClientRequestToken], which is none of the parameters
    of the operation ([MoveToVersionId] is), so the client refuses the call
    whatever the store holds. *)
Definition mem_update_secret_version_stage
    (SecretId VersionStage ClientRequestToken RemoveFromVersionId : string)
    (st : secrets) : result unit * secrets :=
  mem_update_call "ClientRequestToken"
    SecretId VersionStage ClientRequestToken RemoveFromVersionId st.

Definition mem_store : SecretsManager secrets := {|
  get_secret_value := mem_get_secret_value;
  put_secret_value := mem_put_secret_value;
  describe_secret := mem_describe_secret;
  update_secret_version_stage := mem_update_secret_version_stage
|}.

(** ** A JSON codec to run the handlers with

    [dumps] writes a value the way [json.dumps] does with its default
    separators; [loads] reads that format back (objects, arrays, strings
    with the quote and the backslash escaped, integers, [true], [false],
    [null], white space between tokens). *)

Definition dquote : ascii := ascii_of_nat 34.
Definition backslash : ascii := ascii_of_nat 92.

Fixpoint escape (s : string) : string :=
  match s with
  | EmptyString => EmptyString
  | String c s' =>
      if Ascii.eqb c dquote || Ascii.eqb c backslash
      then String backslash (String c (escape s'))
      else String c (escape s')
  end.

Definition quoted (s : string) : string :=
  String dquote (escape s +:+ String dquote EmptyString).

Definition string_of_Z (n : Z) : string :=
  NilZero.string_of_int (Z.to_int n).

Fixpoint dumps (j : json) : string :=
  match j with
  | JNull => "null"
  | JBool true => "true"
  | JBool false => "false"
  | JInt n => string_of_Z n
  | JFloat literal => literal
  | JStr s => quoted s
  | JList l =>
      "[" +:+
      (fix elements (l : list json) : string :=
         match l with
         | [] => "]"
         | x :: l' =>
             dumps x +:+ match l' with [] => "" | _ => ", " end +:+ elements l'
         end) l
  | JDict d =>
      "{" +:+
      (fix members (d : list (string * json)) : string :=
         match d with
         | [] => "}"
         | (k, v) :: d' =>
             quoted k +:+ ": " +:+ dumps v
             +:+ match d' with [] => "" | _ => ", " end +:+ members d'
         end) d
  end.

Definition is_space (c : ascii) : bool :=
  let n := nat_of_ascii c in
  bool_decide (n = 32 ∨ n = 9 ∨ n = 10 ∨ n = 13).

Fixpoint skip_space (s : string) : string :=
  match s with
  | String c s' => if is_space c then skip_space s' else s
  | EmptyString => s
  end.

Definition digit (c : ascii) : option Z :=
  let n := nat_of_ascii c in
  if bool_decide (48 ≤ n ≤ 57) then Some (Z.of_nat n - 48)%Z else None.

Fixpoint scan_digits (acc : Z) (s : string) : Z * string :=
  match s with
  | String c s' =>
      match digit c with
      | Some d => scan_digits (10 * acc + d) s'
      | None => (acc, s)
      end
  | EmptyString => (acc, s)
  end.

(** An integer: an optional sign and at least one digit. *)
Definition scan_int (s : string) : option (Z * string) :=
  let '(sign, s1) :=
    match s with
    | String "-" s' => ((-1)%Z, s')
    | _ => (1%Z, s)
    end in
  match s1 with
  | String c _ =>
      match digit c with
      | Some _ => let '(n, rest) := scan_digits 0 s1 in Some ((sign * n)%Z, rest)
      | None => None
      end
  | EmptyString => None
  end.

(** The text of a string, from after its opening quote to its closing one. *)
Fixpoint scan_string (s : string) : option (string * string) :=
  match s with
  | EmptyString => None
  | String c s' =>
      if Ascii.eqb c dquote then Some (EmptyString, s')
      else if Ascii.eqb c backslash then
        match s' with
        | String e s'' =>
            if Ascii.eqb e dquote || Ascii.eqb e backslash then
              match scan_string s'' with
              | Some (text, rest) => Some (String e text, rest)
              | None => None
              end
            else None
        | EmptyString => None
        end
      else
        match scan_string s' with
        | Some (text, rest) => Some (String c text, rest)
        | None => None
        end
  end.

Definition drop_string (n : nat) (s : string) : string :=
  String.substring n (String.length s - n) s.

Fixpoint parse_value (fuel : nat) (s : string) : option (json * string) :=
  match fuel with
  | O => None
  | Datatypes.S fuel =>
      match skip_space s with
      | String "{" rest =>
          match skip_space rest with
          | String "}" rest' => Some (JDict [], rest')
          | _ =>
              '(d, rest') ← parse_members fuel rest;
              Some (JDict (foldl (λ d '(k, v), dict_setitem k v d) [] d), rest')
          end
      | String "[" rest =>
          match skip_space rest with
          | String "]" rest' => Some (JList [], rest')
          | _ => '(l, rest') ← parse_elements fuel rest; Some (JList l, rest')
          end
      | String c rest as s0 =>
          if Ascii.eqb c dquote then
            '(text, rest') ← scan_string rest; Some (JStr text, rest')
          else if String.prefix "true" s0 then Some (JBool true, drop_string 4 s0)
          else if String.prefix "false" s0 then Some (JBool false, drop_string 5 s0)
          else if String.prefix "null" s0 then Some (JNull, drop_string 4 s0)
          else '(n, rest') ← scan_int s0; Some (JInt n, rest')
      | EmptyString => None
      end
  end
with parse_members (fuel : nat) (s : string)
  : option (list (string * json) * string) :=
  match fuel with
  | O => None
  | Datatypes.S fuel =>
      match skip_space s with
      | String c r0 =>
          if Ascii.eqb c dquote then
            '(k, r1) ← scan_string r0;
            match skip_space r1 with
            | String ":" r2 =>
                '(v, r3) ← parse_value fuel r2;
                match skip_space r3 with
                | String "," r4 =>
                    '(d, r5) ← parse_members fuel r4; Some ((k, v) :: d, r5)
                | String "}" r4 => Some ([(k, v)], r4)
                | _ => None
                end
            | _ => None
            end
          else None
      | EmptyString => None
      end
  end
with parse_elements (fuel : nat) (s : string) : option (list json * string) :=
  match fuel with
  | O => None
  | Datatypes.S fuel =>
      '(x, r1) ← parse_value fuel s;
      match skip_space r1 with
      | String "," r2 => '(l, r3) ← parse_elements fuel r2; Some (x :: l, r3)
      | String "]" r2 => Some ([x], r2)
      | _ => None
      end
  end.

Definition loads (s : string) : parsed :=
  match parse_value (Datatypes.S (String.length s)) s with
  | Some (j, rest) =>
      match skip_space rest with
      | EmptyString => Parsed j
      | _ => Malformed "Extra data"
      end
  | None => Malformed "Expecting value"
  end.

Definition python_json : JsonModule := {|
  parse := loads;
  json_dumps := dumps
|}.

(** A client whose [put_secret_value] fails with [e] and stores nothing;
    the other methods are those of [client]. *)
Definition failing_put {S} (e : exn) (client : SecretsManager S)
  : SecretsManager S := {|
  get_secret_value := get_secret_value client;
  put_secret_value := λ _ _ _ _ st, (Raise e, st);
  describe_secret := describe_secret client;
  update_secret_version_stage := update_secret_version_stage client
|}.

(** ** Notions the properties are stated with *)

(** The data [create_secret] stores for a current dict [d]: the two fields
    are set when [d] has the key ['apiVersion'], and [d] is kept as it is
    otherwise. *)
Definition rotated (now : Z) (token : string) (d : list (string * json))
  : list (string * json) :=
  if dict_contains "apiVersion" d then
    dict_setitem "rotationId" (JStr (String.substring 0 8 token))
      (dict_setitem "lastRotated" (JInt now) d)
  else d.

(** What [create_secret] makes of the current data at time [now]: the
    data to store, or the exception the copy or the assignment raises. *)
Definition rotate (now : Z) (token : string) (current_data : json) : result json :=
  match current_data with
  | JDict d => Ok (JDict (rotated now token d))
  | JList l =>
      if list_contains_str "apiVersion" l
      then Raise (TypeError "list indices must be integers or slices, not str")
      else Ok (JList l)
  | other =>
      Raise (AttributeError
               ("'" +:+ type_name other +:+ "' object has no attribute 'copy'"))
  end.

(** The step names [handler] dispatches on. *)
Definition known_steps : list string :=
  ["createSecret"; "setSecret"; "testSecret"; "finishSecret"].

(** The example of the specification: a secret whose one version, the
    current one, holds an object with the key ['apiVersion']. *)
Definition example_payload : string := dumps (JDict [("apiVersion", JInt 1)]).

Definition example_secret : gmap string version :=
  {[ "v1" := Version example_payload {["AWSCURRENT"]} ]}.

Definition example_world : world (gmap string (gmap string version)) :=
  World {[ "app-config" := example_secret ]} [] [] 1700000000.

(** A secret whose current payload has no ['apiVersion']. *)
Definition plain_payload : string := dumps (JDict [("name", JStr "demo")]).

Definition plain_secret : gmap string version :=
  {[ "v1" := Version plain_payload {["AWSCURRENT"]} ]}.

Definition plain_world : world (gmap string (gmap string version)) :=
  World {[ "app-config" := plain_secret ]} [] [] 1700000000.

(** The example secret once a version for the token ["tok123"] is
    pending. *)
Definition pending_secret : gmap string version :=
  {[ "v1" := Version example_payload {["AWSCURRENT"]};
     "tok123" :=
       Version
         (dumps (JDict [("apiVersion", JInt 1);
                        ("lastRotated", JInt 1700000000);
                        ("rotationId", JStr "tok123")]))
         {["AWSPENDING"]} ]}.

Definition pending_world : world (gmap string (gmap string version)) :=
  World {[ "app-config" := pending_secret ]} [] [] 1700000030.

(** The example secret as a finished rotation would leave it: the version
    of the token ["tok123"] is the current one. *)
Definition promoted_secret : gmap string version :=
  {[ "v1" := Version example_payload ∅;
     "tok123" :=
       Version
         (dumps (JDict [("apiVersion", JInt 1);
                        ("lastRotated", JInt 1700000000);
                        ("rotationId", JStr "tok123")]))
         {["AWSCURRENT"]} ]}.

Definition promoted_world : world (gmap string (gmap string version)) :=
  World {[ "app-config" := promoted_secret ]} [] [] 1700000090.

(** The refusal of the client for the call [finish_secret] makes. *)
Definition refused : exn :=
  param_validation_error "ClientRequestToken" update_stage_parameters.

(** The four steps in order for the token ["tok123"], each through
    [handler]. *)
Definition request (step : string) : Event :=
  {| SecretId := "app-config"; ClientRequestToken := "tok123"; Step := Some step |}.

Definition rotation : M (gmap string (gmap string version)) Response :=
  (handler mem_store python_json (request "createSecret") ;;
   handler mem_store python_json (request "setSecret") ;;
   handler mem_store python_json (request "testSecret") ;;
   handler mem_store python_json (request "finishSecret"))%py.

(** The step handler a step name is dispatched to by [handler]. *)
Definition step_handler {S} (client : SecretsManager S) (jsonlib : JsonModule)
    (name : string) : option (string → string → M S unit) :=
  if String.eqb name "createSecret" then Some (create_secret client jsonlib)
  else if String.eqb name "setSecret" then Some set_secret
  else if String.eqb name "testSecret" then Some (test_secret client jsonlib)
  else if String.eqb name "finishSecret" then Some (finish_secret client)
  else None.


(** The world once [handler] has logged that it starts. *)
Definition started {S} (event : Event) (w : world S) : world S :=
  World (store w) (calls w)
    ((INFO, "Starting rotation for secret: " +:+ SecretId event
            +:+ ", step: " +:+ fmt (Step event)) :: log w)
    (clock w).

(** A world with one more line in the log. *)
Definition logged {S} (line : level * string) (w : world S) : world S :=
  World (store w) (calls w) (line :: log w) (clock w).

(** A world with one more call on the client recorded. *)
Definition called {S} (c : api_call) (w : world S) : world S :=
  World (store w) (c :: calls w) (log w) (clock w).

(** What the store describes of the example secret with its pending
    version. *)
Definition pending_description : DescribeSecretResponse :=
  {| VersionIdsToStages :=
       {[ "v1" := ["AWSCURRENT"]; "tok123" := ["AWSPENDING"] ]} |}.

(** ** Dicts *)

Lemma dict_get_setitem_eq k v d : dict_get k (dict_setitem k v d) = Some v.
Proof.
  induction d as [|[k' v'] d IH]; simpl.
  - by rewrite String.eqb_refl.
  - destruct (String.eqb k k') eqn:E; simpl.
    + by rewrite String.eqb_refl.
    + by rewrite E.
Qed.

Lemma dict_get_setitem_ne k k' v d :
  k ≠ k' → dict_get k' (dict_setitem k v d) = dict_get k' d.
Proof.
  intros Hne. induction d as [|[k0 v0] d IH]; simpl.
  - destruct (String.eqb k' k) eqn:E; [|done].
    apply String.eqb_eq in E. congruence.
  - destruct (String.eqb k k0) eqn:E; simpl.
    + apply String.eqb_eq in E as <-.
      destruct (String.eqb k' k) eqn:E'; [|done].
      apply String.eqb_eq in E'. congruence.
    + by rewrite IH.
Qed.

(** The data stored for a dict with ['apiVersion'] reads as the current
    dict at every key but the two that are set. *)
Lemma rotated_get now token d k :
  dict_contains "apiVersion" d = true →
  dict_get k (rotated now token d) =
    if String.eqb k "rotationId" then Some (JStr (String.substring 0 8 token))
    else if String.eqb k "lastRotated" then Some (JInt now)
    else dict_get k d.
Proof.
  intros Hv. unfold rotated. rewrite Hv.
  destruct (String.eqb k "rotationId") eqn:E1.
  { apply String.eqb_eq in E1 as ->. apply dict_get_setitem_eq. }
  apply String.eqb_neq in E1.
  rewrite dict_get_setitem_ne //.
  destruct (String.eqb k "lastRotated") eqn:E2.
  { apply String.eqb_eq in E2 as ->. apply dict_get_setitem_eq. }
  apply String.eqb_neq in E2.
  by rewrite dict_get_setitem_ne.
Qed.

(** ** Staging labels in the in-memory store *)

Lemma elem_of_holders stage (sec : gmap string version) v :
  v ∈ holders stage sec ↔ ∃ x, sec !! v = Some x ∧ stage ∈ VersionStages x.
Proof.
  unfold holders. rewrite elem_of_dom. split.
  - intros [x Hx]. apply map_lookup_filter_Some in Hx as [? ?]. eauto.
  - intros (x & ? & ?). exists x. by apply map_lookup_filter_Some.
Qed.

Lemma exclusive_holder stage (sec : gmap string version) v :
  exclusive stage sec → v ∈ holders stage sec → holders stage sec = {[v]}.
Proof.
  unfold exclusive. intros Hsz Hv.
  assert (size (holders stage sec) ≠ 0).
  { intros Hz. apply size_empty_inv in Hz. set_solver. }
  apply set_eq. intros u. rewrite elem_of_singleton. split.
  - intros Hu. apply (size_singleton_inv (holders stage sec)); [lia|done..].
  - by intros ->.
Qed.

Lemma holders_singleton_exclusive stage (sec : gmap string version) v :
  holders stage sec = {[v]} → exclusive stage sec.
Proof. unfold exclusive. intros ->. by rewrite size_singleton. Qed.

Lemma holders_insert_fresh stage (sec : gmap string version) v x :
  sec !! v = None →
  holders stage (<[v := x]> sec) =
    (if bool_decide (stage ∈ VersionStages x) then {[v]} else ∅)
    ∪ holders stage sec.
Proof.
  intros Hv. apply set_eq. intros u.
  rewrite elem_of_union !elem_of_holders. split.
  - intros (y & Hy & Hs). destruct (decide (v = u)) as [->|Hne].
    + rewrite lookup_insert_eq in Hy. injection Hy as <-.
      left. rewrite bool_decide_eq_true_2 //. set_solver.
    + rewrite lookup_insert_ne // in Hy. right. eauto.
  - intros [Hu|Hu].
    + case_bool_decide; [|set_solver].
      apply elem_of_singleton in Hu as ->. exists x.
      by rewrite lookup_insert_eq.
    + destruct Hu as (y & Hy & Hs). exists y.
      rewrite lookup_insert_ne //. congruence.
Qed.

Lemma holders_strip stage (stages : gset string) (sec : gmap string version) :
  holders stage (strip stages <$> sec) =
    if bool_decide (stage ∈ stages) then ∅ else holders stage sec.
Proof.
  apply set_eq. intros u. rewrite elem_of_holders. split.
  - intros (y & Hy & Hs). rewrite lookup_fmap in Hy.
    destruct (sec !! u) as [x|] eqn:Hx; [|done]. injection Hy as <-.
    simpl in Hs. apply elem_of_difference in Hs as [Hs Hn].
    rewrite bool_decide_eq_false_2 //. apply elem_of_holders. eauto.
  - case_bool_decide; [set_solver|].
    intros (x & Hx & Hs)%elem_of_holders. exists (strip stages x).
    rewrite lookup_fmap Hx. split; [done|]. simpl. set_solver.
Qed.

(** Moving a label: afterwards it is on the version it moved to, and on
    whichever other versions carried it, the one it left apart. *)
Lemma holders_move stage (sec : gmap string version) from to :
  is_Some (sec !! to) →
  holders stage (move stage from to sec) =
    {[to]} ∪ holders stage sec ∖ {[from]}.
Proof.
  intros [y Hy]. apply set_eq. intros u.
  rewrite elem_of_union elem_of_difference !elem_of_singleton !elem_of_holders.
  unfold move. rewrite !lookup_alter.
  destruct (decide (to = u)) as [->|Hto];
    destruct (decide (from = u)) as [->|Hfrom]; simpl.
  - split; [by left|]. intros _. rewrite Hy. eexists. split; [done|].
    simpl. set_solver.
  - split; [by left|]. intros _. rewrite Hy. eexists. split; [done|].
    simpl. set_solver.
  - split; [|naive_solver]. intros (z & Hz & Hs).
    destruct (sec !! u) as [x|]; [|done]. injection Hz as <-.
    simpl in Hs. set_solver.
  - naive_solver.
Qed.

(** A label other than the one that moves joins no version. *)
Lemma holders_move_other stage l (sec : gmap string version) from to :
  l ≠ stage → holders l (move stage from to sec) ⊆ holders l sec.
Proof.
  intros Hne u. rewrite !elem_of_holders. unfold move. rewrite !lookup_alter.
  intros (y & Hy & Hl).
  destruct (decide (to = u)) as [->|Hto];
    destruct (decide (from = u)) as [->|Hfrom];
    destruct (sec !! u) as [x|]; simplify_eq/=;
    (eexists; split; [done|]); set_solver.
Qed.


Lemma update_keeps_exclusive l (st st' : gmap string (gmap string version))
    arn stage to from sec :
  st !! arn = Some sec →
  exclusive l sec →
  mem_move_stage arn stage to from st = (Ok (), st') →
  ∃ sec', st' !! arn = Some sec' ∧ exclusive l sec'.
Proof.
  intros Hsec Hexcl. unfold mem_move_stage. rewrite Hsec.
  destruct (sec !! from) as [old|] eqn:Hold; [|done].
  destruct (sec !! to) as [new|] eqn:Hnew; [|done].
  case_bool_decide as Hs; [|done]. intros [= <-].
  eexists. split; [apply lookup_insert_eq|].
  destruct (decide (l = stage)) as [->|Hne].
  - assert (from ∈ holders stage sec) as Hin by (apply elem_of_holders; eauto).
    unfold exclusive. rewrite holders_move; [by eauto|].
    rewrite (exclusive_holder _ _ _ Hexcl Hin).
    assert ({[to]} ∪ ({[from]} : gset string) ∖ {[from]} = {[to]}) as ->
      by set_solver.
    by rewrite size_singleton.
  - unfold exclusive in *. etrans; [|exact Hexcl].
    apply subseteq_size. by apply holders_move_other.
Qed.

Lemma mem_get_by_stage (st : gmap string (gmap string version)) arn sec stage v x :
  st !! arn = Some sec → holders stage sec = {[v]} → sec !! v = Some x →
  mem_get_secret_value arn None (Some stage) st =
    Ok {| resp_VersionId := v; resp_SecretString := SecretString x |}.
Proof.
  intros Hst Hh Hx. unfold mem_get_secret_value. rewrite Hst. simpl.
  assert (filter (λ kv : string * version, stage ∈ VersionStages kv.2) sec
          = {[v := x]}) as ->; [|by rewrite map_to_list_singleton].
  assert (v ∈ holders stage sec) as Hv by set_solver.
  apply elem_of_holders in Hv as (x' & Hx' & Hs).
  assert (x' = x) as -> by congruence.
  apply map_eq. intros u. destruct (decide (v = u)) as [<-|Hne].
  - rewrite lookup_singleton_eq. by apply map_lookup_filter_Some.
  - rewrite lookup_singleton_ne //. apply map_lookup_filter_None.
    destruct (sec !! u) as [y|] eqn:Hy; [right|by left].
    intros ? [= <-] Hin. simpl in Hin.
    assert (u ∈ holders stage sec) as Hu by (apply elem_of_holders; eauto).
    set_solver.
Qed.

Lemma mem_get_by_stage_inv (st : gmap string (gmap string version)) arn stage resp :
  mem_get_secret_value arn None (Some stage) st = Ok resp →
  ∃ sec x, st !! arn = Some sec ∧ sec !! resp_VersionId resp = Some x
           ∧ stage ∈ VersionStages x
           ∧ resp_SecretString resp = SecretString x.
Proof.
  unfold mem_get_secret_value. destruct (st !! arn) as [sec|]; [|done]. simpl.
  destruct (map_to_list _) as [|[vid x] l] eqn:Hl; [done|].
  intros [= <-]. simpl.
  assert ((vid, x) ∈ map_to_list
            (filter (λ kv : string * version, stage ∈ VersionStages kv.2) sec))
    as Hin by (rewrite Hl; left).
  apply elem_of_map_to_list, map_lookup_filter_Some in Hin as [? ?].
  exists sec, x. eauto.
Qed.

(** The loop of [get_current_version_id] over what the in-memory store
    describes: it returns a version that carries the current label, and
    finds none only when no version carries it. *)
Lemma first_current_sound items v :
  first_current items = Some v →
  ∃ stages, (v, stages) ∈ items ∧ "AWSCURRENT" ∈ stages.
Proof.
  induction items as [|[u stages] items IH]; simpl; [done|].
  case_bool_decide.
  - intros [= ->]. exists stages. split; [left|done].
  - intros (stages' & ? & ?)%IH. exists stages'. split; [by right|done].
Qed.

Lemma first_current_complete items :
  first_current items = None →
  ∀ v stages, (v, stages) ∈ items → "AWSCURRENT" ∉ stages.
Proof.
  induction items as [|[u stages] items IH]; simpl.
  - intros _ v stages Hin. by apply elem_of_nil in Hin.
  - case_bool_decide; [done|]. intros Hn v stages' Hin.
    apply elem_of_cons in Hin as [[= -> ->]|Hin]; [done|]. by eapply IH.
Qed.

Lemma described_current (sec : gmap string version) v :
  first_current (map_to_list ((λ x, elements (VersionStages x)) <$> sec)) = Some v →
  v ∈ holders "AWSCURRENT" sec.
Proof.
  intros (stages & Hin & Hs)%first_current_sound.
  apply elem_of_map_to_list in Hin. rewrite lookup_fmap in Hin.
  destruct (sec !! v) as [x|] eqn:Hx; [|done]. injection Hin as <-.
  apply elem_of_elements in Hs. apply elem_of_holders. eauto.
Qed.

Lemma described_none (sec : gmap string version) :
  first_current (map_to_list ((λ x, elements (VersionStages x)) <$> sec)) = None →
  holders "AWSCURRENT" sec = ∅.
Proof.
  intros Hn. apply set_eq. intros v. split; [|set_solver].
  intros (x & Hx & Hs)%elem_of_holders. exfalso.
  eapply (first_current_complete _ Hn v (elements (VersionStages x))).
  - apply elem_of_map_to_list. by rewrite lookup_fmap Hx.
  - by apply elem_of_elements.
Qed.

(** ** Running the handlers *)

Arguments rotate_data : simpl never.

Ltac run :=
  unfold create_secret, set_secret, test_secret, finish_secret,
    get_current_version_id, handler, try_except, bind, call_query,
    call_update, lift, ret, raise, logger_info, logger_error, time_time;
  simpl.

Lemma rotate_data_run {S} token current_data (w : world S) :
  rotate_data token current_data w = (rotate (clock w) token current_data, w).
Proof.
  unfold rotate_data, rotate, rotated.
  destruct current_data as [| | | | |l|d]; simpl; try done.
  - by destruct (list_contains_str _ l).
  - by destruct (dict_contains _ d).
Qed.

(** Whether the data can be rotated does not depend on the time, and what
    is raised when it cannot is no error of the store. *)
Lemma rotate_any_time now now' token current_data new_data :
  rotate now token current_data = Ok new_data →
  ∃ new_data', rotate now' token current_data = Ok new_data'.
Proof.
  destruct current_data as [| | | | |l|d]; simpl; try done; [|by eauto].
  destruct (list_contains_str _ l); [done|]. eauto.
Qed.

Lemma rotate_raises now token current_data e :
  rotate now token current_data = Raise e →
  ∀ Code text, e ≠ ClientError Code text.
Proof.
  destruct current_data as [| | | | |l|d]; simpl; try by intros [= <-].
  destruct (list_contains_str _ l); [by intros [= <-]|done].
Qed.

Lemma step_is_known step name :
  step_is step name = true ↔ step = Some name.
Proof.
  destruct step as [s|]; simpl; [|done]. rewrite String.eqb_eq.
  split; [by intros ->|by intros [= ->]].
Qed.

Lemma step_is_unknown step name :
  step ≠ Some name → step_is step name = false.
Proof.
  intros Hne. destruct (step_is step name) eqn:E; [|done].
  by apply step_is_known in E.
Qed.

(** C4: for every secret id, token and store state, [test_secret] leaves
    the store, and so the staging labels of every version, as they were,
    whether it returns or raises. *)
Theorem test_secret_keeps_store {S} (client : SecretsManager S) jsonlib
    (secret_arn token : string) (w : world S) :
  store (test_secret client jsonlib secret_arn token w).2 = store w.
Proof.
  run. destruct (get_secret_value _ _ _ _ _) as [resp|e]; simpl; [|done].
  destruct (json_loads _ _) as [secret_data|e]; simpl; [|done].
  destruct secret_data as [| | | | | |d]; simpl; try done.
  by destruct (dict_contains _ d).
Qed.

(** C5: when the pending payload is an object that lacks the required field
    ['apiVersion'], [test_secret] raises the [ValueError] naming the field,
    and the store is as it was: the pending version keeps its labels. *)
Theorem test_secret_missing_field {S} (client : SecretsManager S) jsonlib
    (secret_arn token : string) (w : world S) pending_secret secret_data :
  get_secret_value client secret_arn (Some token) (Some "AWSPENDING") (store w)
    = Ok pending_secret →
  json_loads jsonlib (resp_SecretString pending_secret) = Ok (JDict secret_data) →
  dict_contains "apiVersion" secret_data = false →
  ∃ w', test_secret client jsonlib secret_arn token w
          = (Raise (ValueError "Required field 'apiVersion' missing from secret"),
             w')
        ∧ store w' = store w.
Proof.
  intros Hget Hloads Hmissing. eexists. run.
  rewrite Hget. simpl. rewrite Hloads. simpl. rewrite Hmissing. simpl.
  split; reflexivity.
Qed.

(** C6: a request whose step is none of the four step names makes [handler]
    raise the [ValueError] for an invalid step.  Nothing is called on the
    store, and the only lines logged are the handler's own three: no step
    handler ran, and nothing is tried again. *)
Theorem handler_invalid_step {S} (client : SecretsManager S) jsonlib
    (event : Event) (w : world S) :
  (∀ name, name ∈ known_steps → Step event ≠ Some name) →
  ∃ w', handler client jsonlib event w
          = (Raise (ValueError ("Invalid step: " +:+ fmt (Step event))), w')
        ∧ store w' = store w
        ∧ calls w' = calls w
        ∧ log w' =
            [(ERROR, "Error in step " +:+ fmt (Step event) +:+ ": "
                     +:+ "Invalid step: " +:+ fmt (Step event));
             (ERROR, "Invalid step: " +:+ fmt (Step event));
             (INFO, "Starting rotation for secret: " +:+ SecretId event
                    +:+ ", step: " +:+ fmt (Step event))] ++ log w.
Proof.
  intros Hunknown. eexists. run.
  rewrite !step_is_unknown; try (apply Hunknown; set_solver).
  simpl. repeat split; reflexivity.
Qed.

(** C7: when the store fails the put of the new version with any error but
    the "resource exists" one, [create_secret] raises that same error; it is
    what the specification calls CreateFailedError. *)
Theorem create_secret_store_error {S} (client : SecretsManager S) jsonlib
    (secret_arn token : string) (w : world S) current_secret current_data e s' :
  get_secret_value client secret_arn None (Some "AWSCURRENT") (store w)
    = Ok current_secret →
  json_loads jsonlib (resp_SecretString current_secret) = Ok (JDict current_data) →
  put_secret_value client secret_arn token
    (json_dumps jsonlib (JDict (rotated (clock w) token current_data)))
    ["AWSPENDING"] (store w) = (Raise e, s') →
  (∀ text, e ≠ ClientError "ResourceExistsException" text) →
  ∃ w', create_secret client jsonlib secret_arn token w = (Raise e, w')
        ∧ store w' = s'.
Proof.
  intros Hget Hloads Hput Hother. eexists. run.
  rewrite Hget. simpl. rewrite Hloads. simpl. rewrite rotate_data_run. simpl.
  rewrite Hput. simpl.
  destruct e as [Code text| | | | |]; try (split; reflexivity).
  destruct (String.eqb_spec Code "ResourceExistsException") as [->|_].
  - by destruct (Hother text).
  - split; reflexivity.
Qed.

(** C8: [set_secret] returns for every secret id and token, calls nothing on
    the store and leaves it as it was; it writes one log line.  So does the
    step run through [handler], whatever the client. *)
Theorem set_secret_no_operation {S} (client : SecretsManager S) jsonlib
    (secret_arn token : string) (w : world S) :
  set_secret secret_arn token w
    = (Ok (),
       World (store w) (calls w)
         ((INFO, "Setting secret - no external configuration needed for app config")
            :: log w)
         (clock w))
  ∧ ∃ w',
      handler client jsonlib
        {| SecretId := secret_arn; ClientRequestToken := token;
           Step := Some "setSecret" |} w
        = (Ok {| statusCode := 200; body := json_dumps jsonlib (JStr "Success") |},
           w')
      ∧ store w' = store w
      ∧ calls w' = calls w.
Proof.
  split; [reflexivity|]. eexists. run. repeat split; reflexivity.
Qed.

(** ** The handlers on the in-memory store *)

(** [create_secret] where the current version is [cur] and its payload can
    be rotated: a new version is stored for a token that has none, and
    nothing is stored for a token that has one. *)
Lemma create_secret_mem jsonlib arn token (w : world secrets) sec cur x
    current_data new_data :
  store w !! arn = Some sec →
  holders "AWSCURRENT" sec = {[cur]} →
  sec !! cur = Some x →
  json_loads jsonlib (SecretString x) = Ok current_data →
  rotate (clock w) token current_data = Ok new_data →
  create_secret mem_store jsonlib arn token w =
    let called :=
      PutSecretValue arn token (json_dumps jsonlib new_data) ["AWSPENDING"]
        :: GetSecretValue arn None (Some "AWSCURRENT") :: calls w in
    match sec !! token with
    | None =>
        (Ok (),
         World
           (<[arn := <[token := Version (json_dumps jsonlib new_data)
                                  {["AWSPENDING"]}]>
                       (strip {["AWSPENDING"]} <$> sec)]> (store w))
           called
           ((INFO, "Successfully created new secret version") :: log w)
           (clock w))
    | Some _ =>
        (Ok (),
         World (store w) called
           ((INFO, "Secret version already exists") :: log w) (clock w))
    end.
Proof.
  intros Hsec Hcur Hx Hloads Hrot. run.
  rewrite (mem_get_by_stage _ _ _ _ _ _ Hsec Hcur Hx). simpl.
  rewrite Hloads. simpl. rewrite rotate_data_run. simpl. rewrite Hrot. simpl.
  unfold mem_put_secret_value. rewrite Hsec.
  destruct (sec !! token); simpl; [done|].
  by rewrite union_empty_r_L.
Qed.

(** A [create_secret] that returned had a current version to read and could
    rotate its payload. *)
Lemma create_secret_mem_inv jsonlib arn token (w w1 : world secrets) sec :
  store w !! arn = Some sec →
  create_secret mem_store jsonlib arn token w = (Ok (), w1) →
  ∃ cur x current_data new_data,
    cur ∈ holders "AWSCURRENT" sec ∧ sec !! cur = Some x
    ∧ json_loads jsonlib (SecretString x) = Ok current_data
    ∧ rotate (clock w) token current_data = Ok new_data.
Proof.
  intros Hsec. run.
  destruct (mem_get_secret_value _ _ _ _) as [resp|e] eqn:Hget; simpl.
  2: { revert Hget. unfold mem_get_secret_value. rewrite Hsec. simpl.
       destruct (map_to_list _) as [|[? ?] ?]; [|done]. by intros [= <-]. }
  apply mem_get_by_stage_inv in Hget as (sec' & x & Hsec' & Hx & Hs & Htext).
  assert (sec' = sec) as -> by congruence.
  rewrite Htext. destruct (json_loads _ _) as [current_data|e] eqn:Hloads; simpl.
  2: { revert Hloads. unfold json_loads. by destruct (parse _ _); intros [= <-]. }
  rewrite rotate_data_run. simpl.
  destruct (rotate _ _ _) as [new_data|e] eqn:Hrot; simpl.
  2: { destruct e; try done. by destruct (rotate_raises _ _ _ _ Hrot Code text). }
  intros _. exists (resp_VersionId resp), x, current_data, new_data.
  repeat split; try done. apply elem_of_holders. eauto.
Qed.

(** The client refuses the call [finish_secret] makes, whatever the
    arguments and the store, and the store is as it was. *)
Lemma mem_update_refused arn stage token from (st : gmap string (gmap string version)) :
  mem_update_secret_version_stage arn stage token from st = (Raise refused, st).
Proof. reflexivity. Qed.

(** [finish_secret] where the current version is [cur]: the update it calls
    is refused and the refusal is raised; the store is as it was. *)
Lemma finish_secret_mem arn token (w : world secrets) sec cur :
  store w !! arn = Some sec →
  holders "AWSCURRENT" sec = {[cur]} →
  finish_secret mem_store arn token w =
    (Raise refused,
     logged (ERROR, "Failed to finish rotation: " +:+ str refused)
       (called (UpdateSecretVersionStage arn "AWSCURRENT" token cur)
          (called (DescribeSecret arn) w))).
Proof.
  intros Hsec Hcur. run. unfold mem_describe_secret. rewrite Hsec. simpl.
  destruct (first_current _) as [v|] eqn:Hv; simpl.
  2: { apply described_none in Hv. set_solver. }
  apply described_current in Hv.
  assert (v = cur) as -> by set_solver.
  reflexivity.
Qed.

(** [finish_secret] never returns on the in-memory store: with no version to
    call current it raises before the update, and the update is refused. *)
Lemma finish_secret_mem_raises arn token (w : world secrets) :
  ∃ e, (finish_secret mem_store arn token w).1 = Raise e
       ∧ store (finish_secret mem_store arn token w).2 = store w.
Proof.
  run. destruct (mem_describe_secret _ _) as [response|e]; simpl; [|by eauto].
  destruct (first_current _) as [current|]; simpl; by eauto.
Qed.

(** C9: when the payload of the current version is an object with the key
    ['apiVersion'], a first [create_secret] for a token returns and stores,
    under the token and labelled pending, the current object with
    ['lastRotated'] set to the integer time and ['rotationId'] set to the
    first eight characters of the token. *)
Theorem create_secret_rotates jsonlib (secret_arn token : string)
    (w : world secrets) sec cur x current_data :
  store w !! secret_arn = Some sec →
  exclusive "AWSCURRENT" sec →
  sec !! cur = Some x →
  "AWSCURRENT" ∈ VersionStages x →
  json_loads jsonlib (SecretString x) = Ok (JDict current_data) →
  dict_contains "apiVersion" current_data = true →
  sec !! token = None →
  ∃ w' sec',
    create_secret mem_store jsonlib secret_arn token w = (Ok (), w')
    ∧ store w' !! secret_arn = Some sec'
    ∧ sec' !! token =
        Some (Version
                (json_dumps jsonlib
                   (JDict
                      (dict_setitem "rotationId"
                         (JStr (String.substring 0 8 token))
                         (dict_setitem "lastRotated" (JInt (clock w))
                            current_data))))
                {["AWSPENDING"]}).
Proof.
  intros Hsec Hexcl Hx Hs Hloads Hkey Hfresh.
  assert (holders "AWSCURRENT" sec = {[cur]}) as Hcur.
  { apply exclusive_holder; [done|]. apply elem_of_holders. eauto. }
  assert (rotate (clock w) token (JDict current_data)
          = Ok (JDict (rotated (clock w) token current_data))) as Hrot by done.
  rewrite (create_secret_mem _ _ _ _ _ _ _ _ _ Hsec Hcur Hx Hloads Hrot).
  simpl. rewrite Hfresh. eexists _, _. split; [done|]. simpl.
  rewrite lookup_insert_eq. split; [done|].
  rewrite lookup_insert_eq. unfold rotated. by rewrite Hkey.
Qed.

Lemma create_secret_rotates_witness :
  ∃ w' sec',
    create_secret mem_store python_json "app-config" "tok123" example_world
      = (Ok (), w')
    ∧ store w' !! "app-config" = Some sec'
    ∧ sec' !! "tok123" =
        Some (Version
                (dumps (JDict [("apiVersion", JInt 1);
                               ("lastRotated", JInt 1700000000);
                               ("rotationId", JStr "tok123")]))
                {["AWSPENDING"]}).
Proof.
  apply (create_secret_rotates python_json "app-config" "tok123" example_world
           example_secret "v1" (Version example_payload {["AWSCURRENT"]})
           [("apiVersion", JInt 1)]).
  - reflexivity.
  - vm_compute. lia.
  - reflexivity.
  - vm_compute. reflexivity.
  - vm_compute. reflexivity.
  - reflexivity.
  - reflexivity.
Defined.

(** C10: when the payload of the current version is an object without the
    key ['apiVersion'], a first [create_secret] for a token returns and
    stores, under the token and labelled pending, that object as it is. *)
Theorem create_secret_keeps_payload jsonlib (secret_arn token : string)
    (w : world secrets) sec cur x current_data :
  store w !! secret_arn = Some sec →
  exclusive "AWSCURRENT" sec →
  sec !! cur = Some x →
  "AWSCURRENT" ∈ VersionStages x →
  json_loads jsonlib (SecretString x) = Ok (JDict current_data) →
  dict_contains "apiVersion" current_data = false →
  sec !! token = None →
  ∃ w' sec',
    create_secret mem_store jsonlib secret_arn token w = (Ok (), w')
    ∧ store w' !! secret_arn = Some sec'
    ∧ sec' !! token =
        Some (Version (json_dumps jsonlib (JDict current_data)) {["AWSPENDING"]}).
Proof.
  intros Hsec Hexcl Hx Hs Hloads Hkey Hfresh.
  assert (holders "AWSCURRENT" sec = {[cur]}) as Hcur.
  { apply exclusive_holder; [done|]. apply elem_of_holders. eauto. }
  assert (rotate (clock w) token (JDict current_data)
          = Ok (JDict current_data)) as Hrot.
  { simpl. unfold rotated. by rewrite Hkey. }
  rewrite (create_secret_mem _ _ _ _ _ _ _ _ _ Hsec Hcur Hx Hloads Hrot).
  simpl. rewrite Hfresh. eexists _, _. split; [done|]. simpl.
  rewrite lookup_insert_eq. split; [done|].
  by rewrite lookup_insert_eq.
Qed.

Lemma create_secret_keeps_payload_witness :
  ∃ w' sec',
    create_secret mem_store python_json "app-config" "tok123" plain_world
      = (Ok (), w')
    ∧ store w' !! "app-config" = Some sec'
    ∧ sec' !! "tok123" =
        Some (Version (dumps (JDict [("name", JStr "demo")])) {["AWSPENDING"]}).
Proof.
  apply (create_secret_keeps_payload python_json "app-config" "tok123"
           plain_world plain_secret "v1"
           (Version plain_payload {["AWSCURRENT"]}) [("name", JStr "demo")]).
  - reflexivity.
  - vm_compute. lia.
  - reflexivity.
  - vm_compute. reflexivity.
  - vm_compute. reflexivity.
  - reflexivity.
  - reflexivity.
Defined.

(** C3: after a first [create_secret] for a token that had no version has
    returned, a second one for the same secret and token, whenever it runs,
    returns too and leaves the store as the first left it: the store
    reports that the version exists, and nothing is written.  The secret
    then has one pending version, the token's, and no version but that one
    was added. *)
Theorem create_secret_twice jsonlib (secret_arn token : string)
    (w w1 w1' : world secrets) sec :
  store w !! secret_arn = Some sec →
  exclusive "AWSCURRENT" sec →
  sec !! token = None →
  create_secret mem_store jsonlib secret_arn token w = (Ok (), w1) →
  store w1' = store w1 →
  ∃ w2 sec1,
    create_secret mem_store jsonlib secret_arn token w1' = (Ok (), w2)
    ∧ store w2 = store w1
    ∧ store w1 !! secret_arn = Some sec1
    ∧ holders "AWSPENDING" sec1 = {[token]}
    ∧ dom sec1 = {[token]} ∪ dom sec.
Proof.
  intros Hsec Hexcl Hfresh Hfirst Hsame.
  destruct (create_secret_mem_inv _ _ _ _ _ _ Hsec Hfirst)
    as (cur & x & current_data & new_data & Hin & Hx & Hloads & Hrot).
  pose proof (exclusive_holder _ _ _ Hexcl Hin) as Hcur.
  rewrite (create_secret_mem _ _ _ _ _ _ _ _ _ Hsec Hcur Hx Hloads Hrot) in Hfirst.
  simpl in Hfirst. rewrite Hfresh in Hfirst. injection Hfirst as <-.
  simpl in Hsame.
  set (sec1 := <[token := Version (json_dumps jsonlib new_data) {["AWSPENDING"]}]>
                 (strip {["AWSPENDING"]} <$> sec)) in *.
  assert (store w1' !! secret_arn = Some sec1) as Hsec1.
  { rewrite Hsame. apply lookup_insert_eq. }
  assert (cur ≠ token) as Hne by congruence.
  assert (sec1 !! cur = Some (strip {["AWSPENDING"]} x)) as Hx1.
  { unfold sec1. rewrite lookup_insert_ne //. by rewrite lookup_fmap Hx. }
  assert ((strip {["AWSPENDING"]} <$> sec) !! token = None) as Hfresh'.
  { by rewrite lookup_fmap Hfresh. }
  assert (holders "AWSCURRENT" sec1 = {[cur]}) as Hcur1.
  { unfold sec1. rewrite holders_insert_fresh // holders_strip. simpl.
    rewrite !bool_decide_eq_false_2; [set_solver..|].
    rewrite Hcur. set_solver. }
  destruct (rotate_any_time _ (clock w1') _ _ _ Hrot) as [new_data' Hrot'].
  rewrite (create_secret_mem _ _ _ _ _ _ _ _ _ Hsec1 Hcur1 Hx1 Hloads Hrot').
  simpl. unfold sec1 at 1. rewrite lookup_insert_eq.
  eexists _, sec1. split; [done|]. simpl.
  split; [done|]. split; [apply lookup_insert_eq|]. split.
  - unfold sec1. rewrite holders_insert_fresh // holders_strip. simpl.
    rewrite !bool_decide_eq_true_2; [set_solver..|]. set_solver.
  - unfold sec1. by rewrite dom_insert_L dom_fmap_L.
Qed.

Lemma create_secret_twice_witness :
  ∃ w2 sec1,
    create_secret mem_store python_json "app-config" "tok123"
      (World
         (store (create_secret mem_store python_json "app-config" "tok123"
                   example_world).2)
         [] [] 1700000060)
      = (Ok (), w2)
    ∧ store w2
      = store (create_secret mem_store python_json "app-config" "tok123"
                 example_world).2
    ∧ store (create_secret mem_store python_json "app-config" "tok123"
               example_world).2 !! "app-config" = Some sec1
    ∧ holders "AWSPENDING" sec1 = {["tok123"]}
    ∧ dom sec1 = {["tok123"]} ∪ dom example_secret.
Proof.
  apply (create_secret_twice python_json "app-config" "tok123" example_world
           (create_secret mem_store python_json "app-config" "tok123"
              example_world).2
           _ example_secret).
  - reflexivity.
  - vm_compute. lia.
  - reflexivity.
  - vm_compute. reflexivity.
  - reflexivity.
Defined.

(** C2: in a store where one version carries the current label and the
    token's version, another one, is pending, [finish_secret] does not
    return.  Its update names the version to move the label to by the
    keyword [ClientRequestToken], the client refuses the call, and the
    refusal is raised: the store is as it was, the version that was current
    is still the one current version, and the token's version is not. *)
Theorem finish_secret_never_promotes (secret_arn token : string)
    (w : world secrets) sec cur :
  store w !! secret_arn = Some sec →
  exclusive "AWSCURRENT" sec →
  cur ∈ holders "AWSCURRENT" sec →
  token ∈ holders "AWSPENDING" sec →
  cur ≠ token →
  ∃ w',
    finish_secret mem_store secret_arn token w = (Raise refused, w')
    ∧ calls w' = UpdateSecretVersionStage secret_arn "AWSCURRENT" token cur
                   :: DescribeSecret secret_arn :: calls w
    ∧ store w' = store w
    ∧ holders "AWSCURRENT" sec = {[cur]}
    ∧ token ∉ holders "AWSCURRENT" sec.
Proof.
  intros Hsec Hexcl Hin Hpending Hne.
  pose proof (exclusive_holder _ _ _ Hexcl Hin) as Hcur.
  rewrite (finish_secret_mem _ _ _ _ _ Hsec Hcur).
  eexists. split; [done|]. repeat split; [done|]. rewrite Hcur. set_solver.
Qed.

Lemma finish_secret_never_promotes_witness :
  ∃ w',
    finish_secret mem_store "app-config" "tok123" pending_world
      = (Raise refused, w')
    ∧ calls w' = UpdateSecretVersionStage "app-config" "AWSCURRENT" "tok123" "v1"
                   :: DescribeSecret "app-config" :: calls pending_world
    ∧ store w' = store pending_world
    ∧ holders "AWSCURRENT" pending_secret = {["v1"]}
    ∧ "tok123" ∉ holders "AWSCURRENT" pending_secret.
Proof.
  apply (finish_secret_never_promotes "app-config" "tok123" pending_world
           pending_secret "v1").
  - reflexivity.
  - vm_compute. lia.
  - vm_compute. reflexivity.
  - vm_compute. reflexivity.
  - discriminate.
Defined.

(** C1: in a store where the token's version carries the current label
    already, as after a finished rotation, [finish_secret] for that token
    does not return as a no-op.  It has no check for the case: it asks the
    client to move the label from the token's version to the token's
    version, the client refuses the call for its keyword
    [ClientRequestToken], and the refusal is raised.  The store is as it
    was. *)
Theorem finish_secret_retry_raises (secret_arn token : string)
    (w : world secrets) sec :
  store w !! secret_arn = Some sec →
  holders "AWSCURRENT" sec = {[token]} →
  ∃ w',
    finish_secret mem_store secret_arn token w = (Raise refused, w')
    ∧ calls w' = UpdateSecretVersionStage secret_arn "AWSCURRENT" token token
                   :: DescribeSecret secret_arn :: calls w
    ∧ store w' = store w.
Proof.
  intros Hsec Hcur. rewrite (finish_secret_mem _ _ _ _ _ Hsec Hcur).
  eexists. split; [done|]. by split.
Qed.

Lemma finish_secret_retry_raises_witness :
  ∃ w',
    finish_secret mem_store "app-config" "tok123" promoted_world
      = (Raise refused, w')
    ∧ calls w' = UpdateSecretVersionStage "app-config" "AWSCURRENT" "tok123" "tok123"
                   :: DescribeSecret "app-config" :: calls promoted_world
    ∧ store w' = store promoted_world.
Proof.
  apply (finish_secret_retry_raises "app-config" "tok123" promoted_world
           promoted_secret).
  - reflexivity.
  - vm_compute. reflexivity.
Defined.

Lemma test_secret_missing_field_witness :
  ∃ w',
    test_secret mem_store python_json "app-config" "tok123"
      (World
         (store (create_secret mem_store python_json "app-config" "tok123"
                   plain_world).2)
         [] [] 1700000030)
      = (Raise (ValueError "Required field 'apiVersion' missing from secret"), w')
    ∧ store w'
      = store (create_secret mem_store python_json "app-config" "tok123"
                 plain_world).2.
Proof.
  apply (test_secret_missing_field mem_store python_json "app-config" "tok123"
           (World
              (store (create_secret mem_store python_json "app-config" "tok123"
                        plain_world).2)
              [] [] 1700000030)
           {| resp_VersionId := "tok123"; resp_SecretString := plain_payload |}
           [("name", JStr "demo")]).
  - vm_compute. reflexivity.
  - vm_compute. reflexivity.
  - reflexivity.
Defined.

Lemma handler_invalid_step_witness :
  ∃ w',
    handler mem_store python_json
      {| SecretId := "app-config"; ClientRequestToken := "tok123";
         Step := Some "rotateSecret" |} pending_world
      = (Raise (ValueError "Invalid step: rotateSecret"), w')
    ∧ store w' = store pending_world
    ∧ calls w' = calls pending_world
    ∧ log w' =
        [(ERROR, "Error in step rotateSecret: Invalid step: rotateSecret");
         (ERROR, "Invalid step: rotateSecret");
         (INFO, "Starting rotation for secret: app-config, step: rotateSecret")]
        ++ log pending_world.
Proof.
  apply (handler_invalid_step mem_store python_json
           {| SecretId := "app-config"; ClientRequestToken := "tok123";
              Step := Some "rotateSecret" |} pending_world).
  intros name Hname. vm_compute in Hname.
  repeat (apply elem_of_cons in Hname as [->|Hname]; [discriminate|]).
  by apply elem_of_nil in Hname.
Defined.

Lemma create_secret_store_error_witness :
  ∃ w',
    create_secret
      (failing_put (client_error "LimitExceededException" "PutSecretValue"
                      "The request failed because it would exceed a quota.")
         mem_store)
      python_json "app-config" "tok123" example_world
      = (Raise (client_error "LimitExceededException" "PutSecretValue"
                  "The request failed because it would exceed a quota."),
         w')
    ∧ store w' = store example_world.
Proof.
  apply (create_secret_store_error
           (failing_put (client_error "LimitExceededException" "PutSecretValue"
                           "The request failed because it would exceed a quota.")
              mem_store)
           python_json "app-config" "tok123" example_world
           {| resp_VersionId := "v1"; resp_SecretString := example_payload |}
           [("apiVersion", JInt 1)]).
  - vm_compute. reflexivity.
  - vm_compute. reflexivity.
  - reflexivity.
  - intros text. discriminate.
Defined.

(** ** The example of the specification, run *)

Example rotation_stops :
  (rotation example_world).1 = Raise refused.
Proof. vm_compute. reflexivity. Qed.

Example rotation_current :
  mem_get_secret_value "app-config" None (Some "AWSCURRENT")
    (store (rotation example_world).2)
  = Ok {| resp_VersionId := "v1"; resp_SecretString := example_payload |}.
Proof. vm_compute. reflexivity. Qed.

Example rotation_calls :
  calls (rotation example_world).2 =
    [UpdateSecretVersionStage "app-config" "AWSCURRENT" "tok123" "v1";
     DescribeSecret "app-config";
     GetSecretValue "app-config" (Some "tok123") (Some "AWSPENDING");
     PutSecretValue "app-config" "tok123"
       (dumps (JDict [("apiVersion", JInt 1);
                      ("lastRotated", JInt 1700000000);
                      ("rotationId", JStr "tok123")]))
       ["AWSPENDING"];
     GetSecretValue "app-config" None (Some "AWSCURRENT")].
Proof. vm_compute. reflexivity. Qed.

Example rotation_labels :
  store (rotation example_world).2 !! "app-config" = Some pending_secret.
Proof. vm_compute. reflexivity. Qed.

(** The text of the refusal. *)
Example refused_text :
  str refused =
    "Parameter validation failed:" +:+ String (ascii_of_nat 10) EmptyString
    +:+ "Unknown parameter in input: " +:+ String (ascii_of_nat 34) EmptyString
    +:+ "ClientRequestToken" +:+ String (ascii_of_nat 34) EmptyString
    +:+ ", must be one of: SecretId, VersionStage, RemoveFromVersionId, MoveToVersionId".
Proof. reflexivity. Qed.

(** Named by the operation's own keyword, the version the label moves to
    is moved to: the call is the store's move. *)
Example move_to_keyword :
  holders "AWSCURRENT"
    <$> (mem_update_call "MoveToVersionId" "app-config" "AWSCURRENT" "tok123" "v1"
           (store pending_world)).2 !! "app-config"
  = Some {["tok123"]}.
Proof. vm_compute. reflexivity. Qed.

(** A step name in another case is not a step name. *)
Example capitalised_step :
  (handler mem_store python_json (request "CreateSecret") example_world).1
  = Raise (ValueError "Invalid step: CreateSecret").
Proof. vm_compute. reflexivity. Qed.

(** A payload that is a string, not an object: the copy raises. *)
Example create_secret_on_string :
  (create_secret mem_store python_json "app-config" "tok123"
     (World {[ "app-config" :=
                 {[ "v1" := Version (dumps (JStr "apiVersion")) {["AWSCURRENT"]} ]} ]}
        [] [] 0)).1
  = Raise (AttributeError "'str' object has no attribute 'copy'").
Proof. vm_compute. reflexivity. Qed.

(** ** Further properties of the handlers, whatever the store *)

(** For a known step, [handler] is the step handler with a log line before
    and after. *)
Lemma handler_dispatch {S} (client : SecretsManager S) jsonlib (event : Event)
    (w : world S) name h :
  Step event = Some name →
  step_handler client jsonlib name = Some h →
  handler client jsonlib event w =
    match h (SecretId event) (ClientRequestToken event) (started event w) with
    | (Ok _, w1) =>
        (Ok {| statusCode := 200; body := json_dumps jsonlib (JStr "Success") |},
         logged (INFO, "Successfully completed step: " +:+ name) w1)
    | (Raise e, w1) =>
        (Raise e, logged (ERROR, "Error in step " +:+ name +:+ ": " +:+ str e) w1)
    end.
Proof.
  intros Hstep Hh. unfold step_handler in Hh.
  unfold handler, started, logged. rewrite Hstep.
  cbv [try_except bind logger_info logger_error ret raise step_is fmt
         store calls log clock].
  repeat (destruct (String.eqb name _);
          [injection Hh as <-;
           match goal with |- context [?f ?a ?t ?w0] =>
             match type of (f a t w0) with
             | (result unit * world S)%type =>
                 by destruct (f a t w0) as [[[]|e] w1]
             end
           end|]).
  done.
Qed.

(** X1: for each of the four step names, [handler] returns the 200 response
    when the step handler returns and raises the step handler's own
    exception when it raises; the store and the client calls are those the
    step handler left: no error is swallowed and no step is run again. *)
Theorem handler_surfaces_step_outcome {S} (client : SecretsManager S) jsonlib
    (event : Event) (w : world S) name h :
  Step event = Some name →
  step_handler client jsonlib name = Some h →
  ∃ w',
    handler client jsonlib event w =
      (match (h (SecretId event) (ClientRequestToken event) (started event w)).1 with
       | Ok _ =>
           Ok {| statusCode := 200; body := json_dumps jsonlib (JStr "Success") |}
       | Raise e => Raise e
       end, w')
    ∧ store w'
      = store (h (SecretId event) (ClientRequestToken event) (started event w)).2
    ∧ calls w'
      = calls (h (SecretId event) (ClientRequestToken event) (started event w)).2.
Proof.
  intros Hstep Hh. rewrite (handler_dispatch _ _ _ _ _ _ Hstep Hh).
  destruct (h _ _ _) as [[[]|e] w1]; eexists; repeat split; reflexivity.
Qed.

Lemma handler_surfaces_step_outcome_witness :
  ∃ w',
    handler mem_store python_json (request "testSecret") pending_world =
      (match (test_secret mem_store python_json "app-config" "tok123"
                (started (request "testSecret") pending_world)).1 with
       | Ok _ => Ok {| statusCode := 200; body := dumps (JStr "Success") |}
       | Raise e => Raise e
       end, w')
    ∧ store w'
      = store (test_secret mem_store python_json "app-config" "tok123"
                 (started (request "testSecret") pending_world)).2
    ∧ calls w'
      = calls (test_secret mem_store python_json "app-config" "tok123"
                 (started (request "testSecret") pending_world)).2.
Proof.
  apply (handler_surfaces_step_outcome mem_store python_json
           (request "testSecret") pending_world "testSecret"
           (test_secret mem_store python_json)).
  - reflexivity.
  - reflexivity.
Defined.

(** X2: when the read of the current version fails, with any error but the
    "resource exists" one, [create_secret] raises that error; nothing is
    put and the store is as it was. *)
Theorem create_secret_read_error {S} (client : SecretsManager S) jsonlib
    (secret_arn token : string) (w : world S) e :
  get_secret_value client secret_arn None (Some "AWSCURRENT") (store w) = Raise e →
  (∀ text, e ≠ ClientError "ResourceExistsException" text) →
  create_secret client jsonlib secret_arn token w
    = (Raise e, called (GetSecretValue secret_arn None (Some "AWSCURRENT")) w).
Proof.
  intros Hget Hother. run. rewrite Hget. simpl.
  destruct e as [Code text| | | | |]; try reflexivity.
  destruct (String.eqb_spec Code "ResourceExistsException") as [->|_]; [|done].
  by destruct (Hother text).
Qed.

Lemma create_secret_read_error_witness :
  create_secret mem_store python_json "no-such-secret" "tok123" example_world
    = (Raise (not_found "GetSecretValue"),
       called (GetSecretValue "no-such-secret" None (Some "AWSCURRENT"))
         example_world).
Proof.
  apply (create_secret_read_error mem_store python_json "no-such-secret"
           "tok123" example_world (not_found "GetSecretValue")).
  - reflexivity.
  - intros text. discriminate.
Defined.

(** X3: when the payload of the current version is not JSON,
    [create_secret] raises the [JSONDecodeError] of [json.loads]; nothing is
    put and the store is as it was. *)
Theorem create_secret_malformed_payload {S} (client : SecretsManager S) jsonlib
    (secret_arn token : string) (w : world S) current_secret msg :
  get_secret_value client secret_arn None (Some "AWSCURRENT") (store w)
    = Ok current_secret →
  parse jsonlib (resp_SecretString current_secret) = Malformed msg →
  create_secret client jsonlib secret_arn token w
    = (Raise (JSONDecodeError msg),
       called (GetSecretValue secret_arn None (Some "AWSCURRENT")) w).
Proof.
  intros Hget Hparse. run. rewrite Hget. simpl.
  unfold json_loads. by rewrite Hparse.
Qed.

Lemma create_secret_malformed_payload_witness :
  create_secret mem_store python_json "app-config" "tok123"
    (World {[ "app-config" :=
                {[ "v1" := Version "not json" {["AWSCURRENT"]} ]} ]} [] [] 0)
    = (Raise (JSONDecodeError "Expecting value"),
       called (GetSecretValue "app-config" None (Some "AWSCURRENT"))
         (World {[ "app-config" :=
                     {[ "v1" := Version "not json" {["AWSCURRENT"]} ]} ]} [] [] 0)).
Proof.
  apply (create_secret_malformed_payload mem_store python_json "app-config"
           "tok123" _ {| resp_VersionId := "v1"; resp_SecretString := "not json" |}).
  - vm_compute. reflexivity.
  - vm_compute. reflexivity.
Defined.

(** X4: when the payload of the current version is JSON but neither an
    object nor a list, [create_secret] raises the [AttributeError] of the
    missing [copy]; nothing is put and the store is as it was. *)
Theorem create_secret_uncopyable_payload {S} (client : SecretsManager S) jsonlib
    (secret_arn token : string) (w : world S) current_secret current_data :
  get_secret_value client secret_arn None (Some "AWSCURRENT") (store w)
    = Ok current_secret →
  json_loads jsonlib (resp_SecretString current_secret) = Ok current_data →
  (∀ d, current_data ≠ JDict d) →
  (∀ l, current_data ≠ JList l) →
  create_secret client jsonlib secret_arn token w
    = (Raise (AttributeError
                ("'" +:+ type_name current_data
                 +:+ "' object has no attribute 'copy'")),
       called (GetSecretValue secret_arn None (Some "AWSCURRENT")) w).
Proof.
  intros Hget Hloads Hdict Hlist. run. rewrite Hget. simpl.
  rewrite Hloads. simpl. rewrite rotate_data_run. simpl.
  destruct current_data as [| | | | |l|d]; try reflexivity.
  - by destruct (Hlist l).
  - by destruct (Hdict d).
Qed.

Lemma create_secret_uncopyable_payload_witness :
  create_secret mem_store python_json "app-config" "tok123"
    (World {[ "app-config" :=
                {[ "v1" := Version "42" {["AWSCURRENT"]} ]} ]} [] [] 0)
    = (Raise (AttributeError "'int' object has no attribute 'copy'"),
       called (GetSecretValue "app-config" None (Some "AWSCURRENT"))
         (World {[ "app-config" :=
                     {[ "v1" := Version "42" {["AWSCURRENT"]} ]} ]} [] [] 0)).
Proof.
  apply (create_secret_uncopyable_payload mem_store python_json "app-config"
           "tok123" _ {| resp_VersionId := "v1"; resp_SecretString := "42" |}
           (JInt 42)).
  - vm_compute. reflexivity.
  - vm_compute. reflexivity.
  - intros d. discriminate.
  - intros l. discriminate.
Defined.

(** X5: whatever comes of it, [create_secret] reads the current version
    first and then puts at most once, a version under its token labelled
    pending only; the store it leaves is the one it found or the one that
    put left.  It calls nothing else on the client. *)
Theorem create_secret_effect {S} (client : SecretsManager S) jsonlib
    (secret_arn token : string) (w : world S) :
  let w' := (create_secret client jsonlib secret_arn token w).2 in
  (calls w' = GetSecretValue secret_arn None (Some "AWSCURRENT") :: calls w
   ∧ store w' = store w)
  ∨ ∃ payload,
      calls w' = PutSecretValue secret_arn token payload ["AWSPENDING"]
                   :: GetSecretValue secret_arn None (Some "AWSCURRENT")
                   :: calls w
      ∧ store w'
        = (put_secret_value client secret_arn token payload ["AWSPENDING"]
             (store w)).2.
Proof.
  run. destruct (get_secret_value _ _ _ _ _) as [resp|e]; simpl.
  2: { left. destruct e as [Code text| | | | |]; try done.
       by destruct (String.eqb Code _). }
  destruct (json_loads _ _) as [current_data|e]; simpl.
  2: { left. destruct e as [Code text| | | | |]; try done.
       by destruct (String.eqb Code _). }
  rewrite rotate_data_run. simpl.
  destruct (rotate _ _ _) as [new_data|e]; simpl.
  2: { left. destruct e as [Code text| | | | |]; try done.
       by destruct (String.eqb Code _). }
  right. exists (json_dumps jsonlib new_data).
  destruct (put_secret_value _ _ _ _ _ _) as [[[]|e] s']; simpl; [done|].
  destruct e as [Code text| | | | |]; try done.
  by destruct (String.eqb Code _).
Qed.

(** X6: [test_secret] returns exactly when the pending version of the
    token can be read and its payload is a JSON object that has the key
    ['apiVersion']. *)
Theorem test_secret_returns_iff {S} (client : SecretsManager S) jsonlib
    (secret_arn token : string) (w : world S) :
  (test_secret client jsonlib secret_arn token w).1 = Ok ()
  ↔ ∃ pending_secret secret_data,
      get_secret_value client secret_arn (Some token) (Some "AWSPENDING") (store w)
        = Ok pending_secret
      ∧ json_loads jsonlib (resp_SecretString pending_secret)
        = Ok (JDict secret_data)
      ∧ dict_contains "apiVersion" secret_data = true.
Proof.
  run. destruct (get_secret_value _ _ _ _ _) as [resp|e]; simpl.
  2: { split; [done|]. by intros (? & ? & ? & _). }
  destruct (json_loads _ _) as [secret_data|e] eqn:Hloads; simpl.
  2: { split; [done|]. intros (? & ? & [= <-] & ? & _). congruence. }
  destruct secret_data as [| | | | | |d]; simpl;
    try (split; [done|]; intros (? & ? & [= <-] & ? & _); congruence).
  destruct (dict_contains _ d) eqn:Hkey; simpl.
  - split; [|done]. intros _. by exists resp, d.
  - split; [done|]. intros (? & ? & [= <-] & ? & ?). congruence.
Qed.

(** X7: when the pending payload is JSON but not an object, [test_secret]
    raises the [ValueError] that says so, and the store is as it was. *)
Theorem test_secret_not_object {S} (client : SecretsManager S) jsonlib
    (secret_arn token : string) (w : world S) pending_secret secret_data :
  get_secret_value client secret_arn (Some token) (Some "AWSPENDING") (store w)
    = Ok pending_secret →
  json_loads jsonlib (resp_SecretString pending_secret) = Ok secret_data →
  (∀ d, secret_data ≠ JDict d) →
  test_secret client jsonlib secret_arn token w
    = (Raise (ValueError "Secret data must be a JSON object"),
       logged (ERROR, "Secret validation failed: Secret data must be a JSON object")
         (called (GetSecretValue secret_arn (Some token) (Some "AWSPENDING")) w)).
Proof.
  intros Hget Hloads Hdict. run. rewrite Hget. simpl. rewrite Hloads. simpl.
  destruct secret_data as [| | | | | |d]; try reflexivity.
  by destruct (Hdict d).
Qed.

Lemma test_secret_not_object_witness :
  test_secret mem_store python_json "app-config" "tok123"
    (World {[ "app-config" :=
                {[ "tok123" := Version "[1, 2]" {["AWSPENDING"]} ]} ]} [] [] 0)
    = (Raise (ValueError "Secret data must be a JSON object"),
       logged (ERROR, "Secret validation failed: Secret data must be a JSON object")
         (called (GetSecretValue "app-config" (Some "tok123") (Some "AWSPENDING"))
            (World {[ "app-config" :=
                        {[ "tok123" := Version "[1, 2]" {["AWSPENDING"]} ]} ]}
               [] [] 0))).
Proof.
  apply (test_secret_not_object mem_store python_json "app-config" "tok123" _
           {| resp_VersionId := "tok123"; resp_SecretString := "[1, 2]" |}
           (JList [JInt 1; JInt 2])).
  - vm_compute. reflexivity.
  - vm_compute. reflexivity.
  - intros d. discriminate.
Defined.

(** X8: when the pending version of the token cannot be read, [test_secret]
    logs the error of the read and raises it; the store is as it was. *)
Theorem test_secret_read_error {S} (client : SecretsManager S) jsonlib
    (secret_arn token : string) (w : world S) e :
  get_secret_value client secret_arn (Some token) (Some "AWSPENDING") (store w)
    = Raise e →
  test_secret client jsonlib secret_arn token w
    = (Raise e,
       logged (ERROR, "Secret validation failed: " +:+ str e)
         (called (GetSecretValue secret_arn (Some token) (Some "AWSPENDING")) w)).
Proof. intros Hget. run. by rewrite Hget. Qed.

Lemma test_secret_read_error_witness :
  test_secret mem_store python_json "app-config" "tok123" example_world
    = (Raise (not_found "GetSecretValue"),
       logged (ERROR, "Secret validation failed: " +:+ str (not_found "GetSecretValue"))
         (called (GetSecretValue "app-config" (Some "tok123") (Some "AWSPENDING"))
            example_world)).
Proof.
  apply (test_secret_read_error mem_store python_json "app-config" "tok123"
           example_world (not_found "GetSecretValue")).
  vm_compute. reflexivity.
Defined.

(** X9: where the secret can be described, [get_current_version_id] returns
    a version that the description labels current, and raises the
    [ValueError] for no current version only when the description labels
    none; it raises nothing else. *)
Theorem get_current_version_id_described {S} (client : SecretsManager S)
    (secret_arn : string) (w : world S) response :
  describe_secret client secret_arn (store w) = Ok response →
  match (get_current_version_id client secret_arn w).1 with
  | Ok version_id =>
      ∃ stages, VersionIdsToStages response !! version_id = Some stages
                ∧ "AWSCURRENT" ∈ stages
  | Raise e =>
      e = ValueError "No current version found"
      ∧ ∀ version_id stages,
          VersionIdsToStages response !! version_id = Some stages →
          "AWSCURRENT" ∉ stages
  end.
Proof.
  intros Hdescribe. run. rewrite Hdescribe. simpl.
  destruct (first_current _) as [v|] eqn:Hv; simpl.
  - apply first_current_sound in Hv as (stages & Hin & Hs).
    apply elem_of_map_to_list in Hin. eauto.
  - split; [done|]. intros v stages Hin.
    apply (first_current_complete _ Hv v). by apply elem_of_map_to_list.
Qed.

Lemma get_current_version_id_described_witness :
  match (get_current_version_id mem_store "app-config" pending_world).1 with
  | Ok version_id =>
      ∃ stages,
        VersionIdsToStages pending_description !! version_id = Some stages
        ∧ "AWSCURRENT" ∈ stages
  | Raise e =>
      e = ValueError "No current version found"
      ∧ ∀ version_id stages,
          VersionIdsToStages pending_description !! version_id = Some stages →
          "AWSCURRENT" ∉ stages
  end.
Proof.
  apply (get_current_version_id_described mem_store "app-config" pending_world
           pending_description).
  vm_compute. reflexivity.
Defined.

Lemma first_current_none (m : gmap string (list string)) :
  (∀ version_id stages, m !! version_id = Some stages → "AWSCURRENT" ∉ stages) →
  first_current (map_to_list m) = None.
Proof.
  intros Hnone. destruct (first_current _) as [v|] eqn:Hv; [|done].
  apply first_current_sound in Hv as (stages & Hin & Hs).
  apply elem_of_map_to_list in Hin. by destruct (Hnone v stages).
Qed.

(** [get_current_version_id] leaves the store as it was and calls
    [describe_secret] once. *)
Lemma get_current_version_id_frame {S} (client : SecretsManager S)
    (secret_arn : string) (w : world S) :
  store (get_current_version_id client secret_arn w).2 = store w
  ∧ calls (get_current_version_id client secret_arn w).2
    = DescribeSecret secret_arn :: calls w.
Proof.
  run. destruct (describe_secret _ _ _) as [response|e]; simpl; [|done].
  by destruct (first_current _).
Qed.

(** X10: when the description of the secret labels no version current,
    [finish_secret] raises the [ValueError] for no current version, logged
    once by the lookup and once by itself; no label is moved and the store
    is as it was. *)
Theorem finish_secret_no_current {S} (client : SecretsManager S)
    (secret_arn token : string) (w : world S) response :
  describe_secret client secret_arn (store w) = Ok response →
  (∀ version_id stages,
     VersionIdsToStages response !! version_id = Some stages →
     "AWSCURRENT" ∉ stages) →
  finish_secret client secret_arn token w
    = (Raise (ValueError "No current version found"),
       logged (ERROR, "Failed to finish rotation: No current version found")
         (logged (ERROR, "Failed to get current version ID: No current version found")
            (called (DescribeSecret secret_arn) w))).
Proof.
  intros Hdescribe Hnone. run. rewrite Hdescribe. simpl.
  by rewrite (first_current_none _ Hnone).
Qed.

Lemma finish_secret_no_current_witness :
  finish_secret mem_store "app-config" "tok123"
    (World {[ "app-config" :=
                {[ "tok123" := Version example_payload {["AWSPENDING"]} ]} ]}
       [] [] 0)
    = (Raise (ValueError "No current version found"),
       logged (ERROR, "Failed to finish rotation: No current version found")
         (logged (ERROR, "Failed to get current version ID: No current version found")
            (called (DescribeSecret "app-config")
               (World {[ "app-config" :=
                           {[ "tok123" :=
                                Version example_payload {["AWSPENDING"]} ]} ]}
                  [] [] 0)))).
Proof.
  apply (finish_secret_no_current mem_store "app-config" "tok123" _
           {| VersionIdsToStages := {[ "tok123" := ["AWSPENDING"] ]} |}).
  - vm_compute. reflexivity.
  - intros version_id stages Hin. simpl in Hin.
    apply lookup_singleton_Some in Hin as [_ <-].
    intros Hs. apply elem_of_cons in Hs as [Hs|Hs]; [discriminate|].
    by apply elem_of_nil in Hs.
Defined.

(** X11: whatever comes of it, [finish_secret] describes the secret first
    and then updates at most once: it moves the label [AWSCURRENT], to the
    version of its token, from a version the description labels current.
    The store it leaves is the one it found or the one that update left. *)
Theorem finish_secret_effect {S} (client : SecretsManager S)
    (secret_arn token : string) (w : world S) :
  let w' := (finish_secret client secret_arn token w).2 in
  (calls w' = DescribeSecret secret_arn :: calls w ∧ store w' = store w)
  ∨ ∃ response current stages,
      describe_secret client secret_arn (store w) = Ok response
      ∧ VersionIdsToStages response !! current = Some stages
      ∧ "AWSCURRENT" ∈ stages
      ∧ calls w' = UpdateSecretVersionStage secret_arn "AWSCURRENT" token current
                     :: DescribeSecret secret_arn :: calls w
      ∧ store w'
        = (update_secret_version_stage client secret_arn "AWSCURRENT" token
             current (store w)).2.
Proof.
  run. destruct (describe_secret _ _ _) as [response|e] eqn:Hdescribe; simpl;
    [|by left].
  destruct (first_current _) as [current|] eqn:Hcur; simpl; [|by left].
  apply first_current_sound in Hcur as (stages & Hin & Hs).
  apply elem_of_map_to_list in Hin.
  right. exists response, current, stages.
  by destruct (update_secret_version_stage _ _ _ _ _ _) as [[[]|e] s'].
Qed.

(** X12: when the store fails the move of the current label,
    [finish_secret] raises the store's error, and leaves the store the
    failed update left. *)
Theorem finish_secret_update_error {S} (client : SecretsManager S)
    (secret_arn token : string) (w w1 : world S) current e s' :
  get_current_version_id client secret_arn w = (Ok current, w1) →
  update_secret_version_stage client secret_arn "AWSCURRENT" token current
    (store w) = (Raise e, s') →
  ∃ w', finish_secret client secret_arn token w = (Raise e, w')
        ∧ store w' = s'
        ∧ log w' = (ERROR, "Failed to finish rotation: " +:+ str e) :: log w1.
Proof.
  intros Hcur Hupdate.
  destruct (get_current_version_id_frame client secret_arn w) as [Hstore _].
  rewrite Hcur in Hstore. simpl in Hstore.
  unfold finish_secret, try_except, bind. rewrite Hcur.
  unfold call_update. rewrite Hstore Hupdate.
  eexists. split; [reflexivity|]. split; reflexivity.
Qed.

Lemma finish_secret_update_error_witness :
  ∃ w',
    finish_secret mem_store "app-config" "tok123" example_world
      = (Raise refused, w')
    ∧ store w' = store example_world
    ∧ log w' =
        (ERROR, "Failed to finish rotation: " +:+ str refused)
          :: log (get_current_version_id mem_store "app-config" example_world).2.
Proof.
  apply (finish_secret_update_error mem_store "app-config" "tok123"
           example_world
           (get_current_version_id mem_store "app-config" example_world).2
           "v1" refused (store example_world)).
  - vm_compute. reflexivity.
  - vm_compute. reflexivity.
Defined.

(** ** Further properties on the in-memory store *)

(** A put that fails leaves the store as it was, and a put touches no
    other secret. *)
Lemma mem_put_raise (st st' : gmap string (gmap string version))
    arn token payload stages e :
  mem_put_secret_value arn token payload stages st = (Raise e, st') → st' = st.
Proof.
  unfold mem_put_secret_value. destruct (st !! arn) as [sec|]; [|by intros [= _ <-]].
  destruct (sec !! token); [by intros [= _ <-]|done].
Qed.

Lemma mem_put_other (st : gmap string (gmap string version))
    arn token payload stages a :
  a ≠ arn →
  (mem_put_secret_value arn token payload stages st).2 !! a = st !! a.
Proof.
  intros Hne. unfold mem_put_secret_value. destruct (st !! arn) as [sec|]; [|done].
  destruct (sec !! token); [done|]. simpl. by rewrite lookup_insert_ne.
Qed.

(** The store a step handler leaves is the one it found, unless the handler
    returned after its one put went through. *)
Lemma create_secret_mem_store jsonlib arn token (w : world secrets) :
  store (create_secret mem_store jsonlib arn token w).2 = store w
  ∨ ∃ payload,
      (create_secret mem_store jsonlib arn token w).1 = Ok ()
      ∧ mem_put_secret_value arn token payload ["AWSPENDING"] (store w)
        = (Ok (), store (create_secret mem_store jsonlib arn token w).2).
Proof.
  run. destruct (mem_get_secret_value _ _ _ _) as [resp|e]; simpl.
  2: { left. destruct e as [Code text| | | | |]; try done.
       by destruct (String.eqb Code _). }
  destruct (json_loads _ _) as [current_data|e]; simpl.
  2: { left. destruct e as [Code text| | | | |]; try done.
       by destruct (String.eqb Code _). }
  rewrite rotate_data_run. simpl.
  destruct (rotate _ _ _) as [new_data|e]; simpl.
  2: { left. destruct e as [Code text| | | | |]; try done.
       by destruct (String.eqb Code _). }
  destruct (mem_put_secret_value _ _ _ _ _) as [[[]|e] st'] eqn:Hput; simpl.
  - right. by exists (json_dumps jsonlib new_data).
  - left. apply mem_put_raise in Hput as ->.
    destruct e as [Code text| | | | |]; try done.
    by destruct (String.eqb Code _).
Qed.

Lemma finish_secret_mem_store arn token (w : world secrets) :
  store (finish_secret mem_store arn token w).2 = store w.
Proof. by destruct (finish_secret_mem_raises arn token w) as (e & _ & ->). Qed.

Lemma test_secret_store {S} (client : SecretsManager S) jsonlib arn token
    (w : world S) :
  store (test_secret client jsonlib arn token w).2 = store w.
Proof.
  run. destruct (get_secret_value _ _ _ _ _) as [resp|e]; simpl; [|done].
  destruct (json_loads _ _) as [secret_data|e]; simpl; [|done].
  destruct secret_data as [| | | | | |d]; simpl; try done.
  by destruct (dict_contains _ d).
Qed.

(** [handler] with no step handler to dispatch to raises and leaves the
    store as it was. *)
Lemma handler_no_dispatch {S} (client : SecretsManager S) jsonlib (event : Event)
    (w : world S) :
  (∀ name, Step event = Some name → step_handler client jsonlib name = None) →
  ∃ e w', handler client jsonlib event w = (Raise e, w') ∧ store w' = store w.
Proof.
  intros Hnone.
  assert (∀ name, name ∈ known_steps → step_is (Step event) name = false) as Hno.
  { intros name Hname. destruct (Step event) as [s|] eqn:Hs; [|done]. simpl.
    destruct (String.eqb_spec s name) as [->|]; [|done].
    specialize (Hnone name eq_refl). unfold step_handler in Hnone.
    unfold known_steps in Hname.
    repeat (apply elem_of_cons in Hname as [->|Hname]; [done|]).
    by apply elem_of_nil in Hname. }
  eexists _, _. run. rewrite !Hno; [set_solver..|]. simpl. split; reflexivity.
Qed.

(** The store [handler] leaves on the in-memory store: the one it found,
    unless it returned after one put on its secret went through. *)
Lemma handler_mem_store jsonlib (event : Event) (w : world secrets) :
  store (handler mem_store jsonlib event w).2 = store w
  ∨ (∃ response, (handler mem_store jsonlib event w).1 = Ok response)
    ∧ ∃ payload,
        mem_put_secret_value (SecretId event) (ClientRequestToken event)
          payload ["AWSPENDING"] (store w)
        = (Ok (), store (handler mem_store jsonlib event w).2).
Proof.
  destruct (Step event) as [name|] eqn:Hstep.
  2: { left. destruct (handler_no_dispatch mem_store jsonlib event w)
         as (e & w' & -> & Hs); [by rewrite Hstep|done]. }
  destruct (step_handler mem_store jsonlib name) as [h|] eqn:Hh.
  2: { left. destruct (handler_no_dispatch mem_store jsonlib event w)
         as (e & w' & -> & Hs); [|done].
       rewrite Hstep. by intros ? [= <-]. }
  rewrite (handler_dispatch _ _ _ _ _ _ Hstep Hh).
  unfold step_handler in Hh.
  destruct (String.eqb name "createSecret").
  { injection Hh as <-.
    destruct (create_secret_mem_store jsonlib (SecretId event)
                (ClientRequestToken event) (started event w))
      as [Hsame|(payload & Hok & Hput)].
    - left. by destruct (create_secret _ _ _ _ _) as [[[]|e] w1].
    - right. destruct (create_secret _ _ _ _ _) as [[[]|e] w1]; [|done].
      split; [by eexists|]. by exists payload. }
  destruct (String.eqb name "setSecret").
  { injection Hh as <-. by left. }
  destruct (String.eqb name "testSecret").
  { injection Hh as <-. left.
    pose proof (test_secret_store mem_store jsonlib (SecretId event)
                  (ClientRequestToken event) (started event w)) as Hsame.
    by destruct (test_secret _ _ _ _ _) as [[[]|e] w1]. }
  destruct (String.eqb name "finishSecret"); [|done].
  injection Hh as <-. left.
  pose proof (finish_secret_mem_store (SecretId event)
                (ClientRequestToken event) (started event w)) as Hsame.
  by destruct (finish_secret _ _ _ _) as [[[]|e] w1].
Qed.

(** X13: on the in-memory store a step that raises, whichever it is, leaves
    the store as it found it. *)
Theorem handler_failure_keeps_store jsonlib (event : Event)
    (w w' : world secrets) e :
  handler mem_store jsonlib event w = (Raise e, w') →
  store w' = store w.
Proof.
  intros Hraise.
  destruct (handler_mem_store jsonlib event w) as [Hsame|[[response Hok] _]];
    rewrite Hraise in Hsame || rewrite Hraise in Hok; done.
Qed.

Lemma handler_failure_keeps_store_witness :
  store (handler mem_store python_json (request "finishSecret") example_world).2
  = store example_world.
Proof.
  apply (handler_failure_keeps_store python_json (request "finishSecret")
           example_world
           (handler mem_store python_json (request "finishSecret") example_world).2
           refused).
  vm_compute. reflexivity.
Defined.



(** X15: on the in-memory store [create_secret], whatever comes of it,
    leaves the current label where it was and the payload of every version
    there was as it was. *)
Theorem create_secret_keeps_current jsonlib (secret_arn token : string)
    (w : world secrets) a sec :
  store w !! a = Some sec →
  ∃ sec',
    store (create_secret mem_store jsonlib secret_arn token w).2 !! a = Some sec'
    ∧ holders "AWSCURRENT" sec' = holders "AWSCURRENT" sec
    ∧ ∀ v x, sec !! v = Some x →
        ∃ x', sec' !! v = Some x' ∧ SecretString x' = SecretString x.
Proof.
  intros Hsec.
  destruct (create_secret_mem_store jsonlib secret_arn token w)
    as [->|(payload & _ & Hput)]; [by eauto 10|].
  destruct (decide (a = secret_arn)) as [->|Hne].
  2: { exists sec.
       pose proof (mem_put_other (store w) secret_arn token payload
                     ["AWSPENDING"] a Hne) as Ho.
       rewrite Hput in Ho. simpl in Ho. rewrite Ho. by eauto 10. }
  revert Hput. unfold mem_put_secret_value. rewrite Hsec.
  destruct (sec !! token) eqn:Hfresh; [done|]. intros [= <-].
  eexists. split; [apply lookup_insert_eq|]. split.
  - rewrite holders_insert_fresh; [by rewrite lookup_fmap Hfresh|].
    rewrite holders_strip. simpl.
    rewrite !bool_decide_eq_false_2; [set_solver..|]. set_solver.
  - intros v x Hx. exists (strip (list_to_set ["AWSPENDING"]) x).
    split; [|done]. rewrite lookup_insert_ne; [congruence|].
    by rewrite lookup_fmap Hx.
Qed.

Lemma create_secret_keeps_current_witness :
  ∃ sec',
    store (create_secret mem_store python_json "app-config" "tok123"
             example_world).2 !! "app-config" = Some sec'
    ∧ holders "AWSCURRENT" sec' = holders "AWSCURRENT" example_secret
    ∧ ∀ v x, example_secret !! v = Some x →
        ∃ x', sec' !! v = Some x' ∧ SecretString x' = SecretString x.
Proof.
  apply (create_secret_keeps_current python_json "app-config" "tok123"
           example_world "app-config" example_secret).
  reflexivity.
Defined.

(** Rotating keeps ['apiVersion'] in or out of the data. *)
Lemma rotated_contains now token d :
  dict_contains "apiVersion" (rotated now token d)
  = dict_contains "apiVersion" d.
Proof.
  destruct (dict_contains "apiVersion" d) eqn:Hkey.
  - unfold dict_contains in *. rewrite rotated_get; [by unfold dict_contains; rewrite Hkey|].
    simpl. done.
  - unfold rotated. by rewrite Hkey.
Qed.

(** [test_secret] on the in-memory store where the token has a pending
    version whose payload is an object. *)
Lemma test_secret_mem jsonlib arn token (w : world secrets) sec x secret_data :
  store w !! arn = Some sec →
  sec !! token = Some x →
  "AWSPENDING" ∈ VersionStages x →
  json_loads jsonlib (SecretString x) = Ok (JDict secret_data) →
  test_secret mem_store jsonlib arn token w =
    if dict_contains "apiVersion" secret_data then
      (Ok (),
       logged (INFO, "Secret validation passed")
         (called (GetSecretValue arn (Some token) (Some "AWSPENDING")) w))
    else
      (Raise (ValueError "Required field 'apiVersion' missing from secret"),
       logged (ERROR, "Secret validation failed: Required field 'apiVersion' missing from secret")
         (called (GetSecretValue arn (Some token) (Some "AWSPENDING")) w)).
Proof.
  intros Hsec Hx Hs Hloads. run. unfold mem_get_secret_value.
  rewrite Hsec Hx. simpl. rewrite bool_decide_eq_true_2 //. simpl.
  rewrite Hloads. simpl. by destruct (dict_contains _ secret_data).
Qed.

(** X16: after a first [create_secret] on a current payload that is an
    object, and that the JSON module reads back as it wrote it,
    [test_secret] for the same token returns if the current payload has the
    key ['apiVersion'] and raises the [ValueError] for the missing field if
    it has not: a secret without the key gets a pending version that cannot
    pass the test. *)
Theorem create_then_test jsonlib (secret_arn token : string)
    (w : world secrets) sec cur x current_data :
  store w !! secret_arn = Some sec →
  exclusive "AWSCURRENT" sec →
  sec !! cur = Some x →
  "AWSCURRENT" ∈ VersionStages x →
  json_loads jsonlib (SecretString x) = Ok (JDict current_data) →
  sec !! token = None →
  json_loads jsonlib
    (json_dumps jsonlib (JDict (rotated (clock w) token current_data)))
    = Ok (JDict (rotated (clock w) token current_data)) →
  ∃ w1,
    create_secret mem_store jsonlib secret_arn token w = (Ok (), w1)
    ∧ ∀ w1', store w1' = store w1 →
        (test_secret mem_store jsonlib secret_arn token w1').1 =
          if dict_contains "apiVersion" current_data then Ok ()
          else Raise (ValueError "Required field 'apiVersion' missing from secret").
Proof.
  intros Hsec Hexcl Hx Hs Hloads Hfresh Hback.
  assert (holders "AWSCURRENT" sec = {[cur]}) as Hcur.
  { apply exclusive_holder; [done|]. apply elem_of_holders. eauto. }
  assert (rotate (clock w) token (JDict current_data)
          = Ok (JDict (rotated (clock w) token current_data))) as Hrot by done.
  rewrite (create_secret_mem _ _ _ _ _ _ _ _ _ Hsec Hcur Hx Hloads Hrot).
  simpl. rewrite Hfresh. eexists. split; [done|]. simpl. intros w1' Hsame.
  rewrite (test_secret_mem jsonlib secret_arn token w1' _ _
             (rotated (clock w) token current_data)
             ltac:(rewrite Hsame; apply lookup_insert_eq)
             ltac:(apply lookup_insert_eq)
             ltac:(simpl; set_solver) Hback).
  rewrite rotated_contains. by destruct (dict_contains _ current_data).
Qed.

Lemma create_then_test_witness :
  ∃ w1,
    create_secret mem_store python_json "app-config" "tok123" plain_world
      = (Ok (), w1)
    ∧ ∀ w1', store w1' = store w1 →
        (test_secret mem_store python_json "app-config" "tok123" w1').1 =
          if dict_contains "apiVersion" [("name", JStr "demo")] then Ok ()
          else Raise (ValueError "Required field 'apiVersion' missing from secret").
Proof.
  apply (create_then_test python_json "app-config" "tok123" plain_world
           plain_secret "v1" (Version plain_payload {["AWSCURRENT"]})
           [("name", JStr "demo")]).
  - reflexivity.
  - vm_compute. lia.
  - reflexivity.
  - vm_compute. reflexivity.
  - vm_compute. reflexivity.
  - reflexivity.
  - vm_compute. reflexivity.
Defined.







(** ** Further properties of the rotated data *)

Lemma dict_setitem_twice k v v' d :
  dict_setitem k v (dict_setitem k v' d) = dict_setitem k v d.
Proof.
  induction d as [|[k' u] d IH]; simpl.
  - by rewrite String.eqb_refl.
  - destruct (String.eqb k k') eqn:E; simpl.
    + by rewrite String.eqb_refl.
    + by rewrite E IH.
Qed.

(** Two keys are set in either order when the dict has the first. *)
Lemma dict_setitem_comm k k' v v' d :
  k ≠ k' → dict_contains k d = true →
  dict_setitem k v (dict_setitem k' v' d) = dict_setitem k' v' (dict_setitem k v d).
Proof.
  intros Hne. unfold dict_contains.
  induction d as [|[k0 v0] d IH]; simpl; [done|].
  destruct (String.eqb k k0) eqn:Ek; destruct (String.eqb k' k0) eqn:Ek'; simpl.
  - apply String.eqb_eq in Ek, Ek'. congruence.
  - intros _. rewrite Ek. apply String.eqb_eq in Ek as ->.
    apply String.eqb_neq in Ek'. by rewrite (proj2 (String.eqb_neq _ _) Ek').
  - intros Hin. apply String.eqb_eq in Ek' as ->.
    rewrite (proj2 (String.eqb_neq _ _) Hne). by rewrite String.eqb_refl.
  - intros Hin. rewrite Ek Ek'. by rewrite IH.
Qed.

Lemma dict_contains_setitem k v d : dict_contains k (dict_setitem k v d) = true.
Proof. unfold dict_contains. by rewrite dict_get_setitem_eq. Qed.

(** X18: the rotation touches two keys only: at every other key the data it
    stores reads as the current data, whether it has ['apiVersion'] or
    not. *)
Theorem rotation_keeps_other_fields now token d k :
  k ≠ "lastRotated" → k ≠ "rotationId" →
  dict_get k (rotated now token d) = dict_get k d.
Proof.
  intros Hlast Hid. unfold rotated.
  destruct (dict_contains "apiVersion" d); [|done].
  rewrite !dict_get_setitem_ne //.
Qed.

Lemma rotation_keeps_other_fields_witness :
  dict_get "apiVersion"
    (rotated 1700000000 "tok123" [("apiVersion", JInt 1); ("region", JStr "eu")])
  = dict_get "apiVersion" [("apiVersion", JInt 1); ("region", JStr "eu")].
Proof.
  apply (rotation_keeps_other_fields 1700000000 "tok123"
           [("apiVersion", JInt 1); ("region", JStr "eu")] "apiVersion").
  - discriminate.
  - discriminate.
Defined.

Lemma substring_prefix n s : String.prefix (String.substring 0 n s) s = true.
Proof.
  revert s. induction n as [|n IH]; intros [|c s]; simpl; try done.
  destruct (Ascii.ascii_dec c c) as [_|Hc]; [apply IH|done].
Qed.

Lemma substring_length n s :
  String.length (String.substring 0 n s) = Nat.min n (String.length s).
Proof.
  revert s. induction n as [|n IH]; intros [|c s]; simpl; try done.
  by rewrite IH.
Qed.

(** X19: the rotation id stored for data with ['apiVersion'] is a prefix of
    the token, of eight characters, or of the whole token if that is
    shorter. *)
Theorem rotation_id_is_token_prefix now token d :
  dict_contains "apiVersion" d = true →
  ∃ id,
    dict_get "rotationId" (rotated now token d) = Some (JStr id)
    ∧ String.prefix id token = true
    ∧ String.length id = Nat.min 8 (String.length token).
Proof.
  intros Hkey. exists (String.substring 0 8 token). unfold rotated. rewrite Hkey.
  split; [apply dict_get_setitem_eq|].
  split; [apply substring_prefix|apply substring_length].
Qed.

Lemma rotation_id_is_token_prefix_witness :
  ∃ id,
    dict_get "rotationId"
      (rotated 1700000000 "0123456789abcdef" [("apiVersion", JInt 1)])
    = Some (JStr id)
    ∧ String.prefix id "0123456789abcdef" = true
    ∧ String.length id = Nat.min 8 (String.length "0123456789abcdef").
Proof.
  apply (rotation_id_is_token_prefix 1700000000 "0123456789abcdef"
           [("apiVersion", JInt 1)]).
  reflexivity.
Defined.

(** X20: rotations do not pile up.  Rotating data that was rotated before,
    at any time and for any token, gives what rotating the first data
    gives: the two fields of the last rotation replace those of the one
    before and nothing else changes.  In particular rotating again at the
    same time for the same token changes nothing. *)
Theorem rotation_replaces_rotation now now' token token' d :
  rotated now' token' (rotated now token d) = rotated now' token' d.
Proof.
  unfold rotated at 1. rewrite rotated_contains. unfold rotated.
  destruct (dict_contains "apiVersion" d); [|done].
  rewrite (dict_setitem_comm "lastRotated" "rotationId").
  - done.
  - apply dict_contains_setitem.
  - by rewrite dict_setitem_twice dict_setitem_twice.
Qed.

(** ** Further edge cases of [create_secret] *)

(** X21: when the payload of the current version is a JSON list that has
    the string ['apiVersion'] among its elements, the membership test
    passes and the assignment of ['lastRotated'] raises a [TypeError];
    nothing is put and the store is as it was. *)
Theorem create_secret_list_payload {S} (client : SecretsManager S) jsonlib
    (secret_arn token : string) (w : world S) current_secret l :
  get_secret_value client secret_arn None (Some "AWSCURRENT") (store w)
    = Ok current_secret →
  json_loads jsonlib (resp_SecretString current_secret) = Ok (JList l) →
  JStr "apiVersion" ∈ l →
  create_secret client jsonlib secret_arn token w
    = (Raise (TypeError "list indices must be integers or slices, not str"),
       called (GetSecretValue secret_arn None (Some "AWSCURRENT")) w).
Proof.
  intros Hget Hloads Hin. run. rewrite Hget. simpl. rewrite Hloads. simpl.
  rewrite rotate_data_run. simpl.
  assert (list_contains_str "apiVersion" l = true) as ->; [|done].
  unfold list_contains_str. apply existsb_exists. exists (JStr "apiVersion").
  split; [by apply list_elem_of_In|]. apply String.eqb_refl.
Qed.

Lemma create_secret_list_payload_witness :
  create_secret mem_store python_json "app-config" "tok123"
    (World {[ "app-config" :=
                {[ "v1" := Version (dumps (JList [JStr "apiVersion"]))
                             {["AWSCURRENT"]} ]} ]} [] [] 0)
    = (Raise (TypeError "list indices must be integers or slices, not str"),
       called (GetSecretValue "app-config" None (Some "AWSCURRENT"))
         (World {[ "app-config" :=
                     {[ "v1" := Version (dumps (JList [JStr "apiVersion"]))
                                  {["AWSCURRENT"]} ]} ]} [] [] 0)).
Proof.
  apply (create_secret_list_payload mem_store python_json "app-config" "tok123" _
           {| resp_VersionId := "v1";
              resp_SecretString := dumps (JList [JStr "apiVersion"]) |}
           [JStr "apiVersion"]).
  - vm_compute. reflexivity.
  - vm_compute. reflexivity.
  - left.
Defined.

(** X22: when the store answers the put with the "resource exists" error,
    [create_secret] returns, with one log line that says the version is
    there already, and the store is the one that put left: whatever the
    store. *)
Theorem create_secret_exists_is_success {S} (client : SecretsManager S) jsonlib
    (secret_arn token : string) (w : world S) current_secret current_data text s' :
  get_secret_value client secret_arn None (Some "AWSCURRENT") (store w)
    = Ok current_secret →
  json_loads jsonlib (resp_SecretString current_secret) = Ok (JDict current_data) →
  put_secret_value client secret_arn token
    (json_dumps jsonlib (JDict (rotated (clock w) token current_data)))
    ["AWSPENDING"] (store w)
    = (Raise (ClientError "ResourceExistsException" text), s') →
  ∃ w', create_secret client jsonlib secret_arn token w = (Ok (), w')
        ∧ store w' = s'
        ∧ log w' = (INFO, "Secret version already exists") :: log w.
Proof.
  intros Hget Hloads Hput. eexists. run.
  rewrite Hget. simpl. rewrite Hloads. simpl. rewrite rotate_data_run. simpl.
  rewrite Hput. simpl. repeat split; reflexivity.
Qed.

Lemma create_secret_exists_is_success_witness :
  ∃ w',
    create_secret mem_store python_json "app-config" "tok123" pending_world
      = (Ok (), w')
    ∧ store w' = store pending_world
    ∧ log w' = (INFO, "Secret version already exists") :: log pending_world.
Proof.
  apply (create_secret_exists_is_success mem_store python_json "app-config"
           "tok123" pending_world
           {| resp_VersionId := "v1"; resp_SecretString := example_payload |}
           [("apiVersion", JInt 1)]
           (str (resource_exists "PutSecretValue"))).
  - vm_compute. reflexivity.
  - vm_compute. reflexivity.
  - vm_compute. reflexivity.
Defined.
